(** * DiscordData: the paginated experiment browser

    A shallow embedding of [src/__init__.py]: the [Page] value object, the
    generic [PaginatedView] state machine, the [ExperimentEmbed] detail
    render, the [ExperimentBrowserView] instantiation and the lookup path of
    the [experiments] command, together with the properties the
    specification states about them.

    Python integers are [Z]; strings are [string]s of one-byte characters,
    so the string methods are modelled on the ASCII range; lists are
    [list]; exceptions are the [Raise] results of a small error monad. The
    external functions ([rapidfuzz]'s matcher, [discord]'s markdown escape)
    and the abstract [get_page] are parameters. *)

From Stdlib Require Import ZArith QArith Lia.
From Stdlib Require Import Ascii String.
From stdpp Require Import base option list sorting strings pretty gmap.

Local Open Scope string_scope.
Local Open Scope list_scope.
Local Open Scope Z_scope.

(** ** Exceptions and the result monad *)

Inductive exn : Type :=
| TypeError
| ValueError (msg : string)
| ZeroDivisionError.

Inductive result (A : Type) : Type :=
| Ok (a : A)
| Raise (e : exn).
Arguments Ok {A} a.
Arguments Raise {A} e.

Definition bind {A B : Type} (r : result A) (k : A → result B) : result B :=
  match r with
  | Ok a => k a
  | Raise e => Raise e
  end.

Notation "'let*' x ':=' r 'in' k" := (bind r (λ x, k))
  (at level 10, x name, r at level 100, k at level 200).

(** ** The Python builtins the module relies on *)

Module Py.

(** [PySlice_AdjustIndices] for a step of one: a negative bound counts
    from the end, and both bounds are clipped to [0 .. len]. *)
Definition adjust_index (i len : Z) : Z :=
  if i <? 0 then (if i + len <? 0 then 0 else i + len)
  else (if len <=? i then len else i).

(** [l[start:stop]]. *)
Definition slice {A : Type} (l : list A) (start stop : Z) : list A :=
  let n := Z.of_nat (length l) in
  let s := adjust_index start n in
  let e := adjust_index stop n in
  take (Z.to_nat (e - s)) (drop (Z.to_nat s) l).

(** [a // b] on integers: floor division, [ZeroDivisionError] for [b = 0]. *)
Definition floordiv (a b : Z) : result Z :=
  if b =? 0 then Raise ZeroDivisionError else Ok (a / b).

(** [math.ceil(a / b)] on integers: the quotient is taken exactly. The
    float quotient of the source agrees for integers below 2^53; beyond
    them it is rounded, and a divisor of 2^1075 or more makes it 0.0. *)
Definition ceil_div (a b : Z) : result Z :=
  if b =? 0 then Raise ZeroDivisionError else Ok (- ((- a) / b)).

Definition is_upper (c : ascii) : bool :=
  let n := nat_of_ascii c in (65 <=? n)%nat && (n <=? 90)%nat.
Definition is_lower (c : ascii) : bool :=
  let n := nat_of_ascii c in (97 <=? n)%nat && (n <=? 122)%nat.
Definition is_digit (c : ascii) : bool :=
  let n := nat_of_ascii c in (48 <=? n)%nat && (n <=? 57)%nat.
Definition to_lower (c : ascii) : ascii :=
  if is_upper c then ascii_of_nat (nat_of_ascii c + 32) else c.
Definition to_upper (c : ascii) : ascii :=
  if is_lower c then ascii_of_nat (nat_of_ascii c - 32) else c.

(** [s.lower()], on the ASCII range: a cased character beyond it is left
    as it is. *)
Fixpoint lower (s : string) : string :=
  match s with
  | EmptyString => EmptyString
  | String c s' => String (to_lower c) (lower s')
  end.

(** [s.title()], on the ASCII range: a letter that follows a letter is
    lowercased, any other letter is uppercased. *)
Fixpoint title_from (prev_cased : bool) (s : string) : string :=
  match s with
  | EmptyString => EmptyString
  | String c s' =>
      if is_upper c || is_lower c
      then String (if prev_cased then to_lower c else to_upper c) (title_from true s')
      else String c (title_from false s')
  end.
Definition title (s : string) : string := title_from false s.

(** [s[:n]]. *)
Fixpoint prefix (n : nat) (s : string) : string :=
  match n, s with
  | S n', String c s' => String c (prefix n' s')
  | _, _ => EmptyString
  end.

(** [s.replace(c, "")] for a one-character [c]. *)
Fixpoint remove_char (c : ascii) (s : string) : string :=
  match s with
  | EmptyString => EmptyString
  | String d s' =>
      if Ascii.eqb c d then remove_char c s' else String d (remove_char c s')
  end.

Fixpoint all_digits (s : string) : bool :=
  match s with
  | EmptyString => true
  | String c s' => is_digit c && all_digits s'
  end.

(** [s.isdigit()], on the ASCII range: false on the empty string, and on
    the digits beyond ASCII. *)
Definition isdigit (s : string) : bool :=
  match s with
  | EmptyString => false
  | _ => all_digits s
  end.

(** [int(s)] for a string of ASCII decimal digits. *)
Fixpoint int_from (acc : Z) (s : string) : Z :=
  match s with
  | EmptyString => acc
  | String c s' => int_from (10 * acc + (Z.of_nat (nat_of_ascii c) - 48)) s'
  end.
Definition int (s : string) : Z := int_from 0 s.

(** [sep.join(parts)]. *)
Fixpoint join (sep : string) (parts : list string) : string :=
  match parts with
  | [] => ""
  | [p] => p
  | p :: rest => p +:+ sep +:+ join sep rest
  end.

(** [str(n)] for an integer of at most 4300 digits, which CPython
    formats. *)
Definition str_of_int (n : Z) : string := pretty n.

(** The newline character. *)
Definition nl : string := String (ascii_of_nat 10) EmptyString.

(** Truth value of a string: only the empty string is false. *)
Definition truthy (s : string) : bool :=
  match s with
  | EmptyString => false
  | _ => true
  end.

End Py.


(** ** Page *)

(** A rich block, as far as this module builds one: [discord.Embed] with a
    title, a description and the fields added by [add_field]. *)
Record Embed : Type := {
  title : string;
  description : string;
  fields : list (string * string)
}.

(** [discord.Attachment | discord.File], opaque to this module. *)
Inductive Attachment : Type :=
| AttachmentRef (filename : string)
| FileRef (filename : string).

(** A [Page] object: its three attributes, [None] standing for [UNSET]. *)
Record Page : Type := {
  content : option string;
  embeds : option (list Embed);
  attachments : option (list Attachment)
}.

(** [Page.__init__]. The singular arguments default to Python's [None], the
    plural ones and [content] to [UNSET]. *)
Definition Page_init (content : option string)
    (embed : option Embed) (embeds : option (list Embed))
    (attachment : option Attachment) (attachments : option (list Attachment))
    : result Page :=
  let* embeds' :=
    match embed with
    | Some e =>
        match embeds with
        | Some _ => Raise (ValueError "Cannot set both `embed` and `embeds`.")
        | None => Ok (Some [e])
        end
    | None => Ok embeds
    end in
  let* attachments' :=
    match attachment with
    | Some a =>
        match attachments with
        | Some _ => Raise (ValueError "Cannot set both `attachment` and `attachments`.")
        | None => Ok (Some [a])
        end
    | None => Ok attachments
    end in
  Ok {| content := content; embeds := embeds'; attachments := attachments' |}.

(** The values a [Page] attribute can hold. *)
Inductive field_value : Type :=
| VContent (s : string)
| VEmbeds (l : list Embed)
| VAttachments (l : list Attachment).

(** [Page.unpack]: the attributes that are not [UNSET], in the order of
    [__dict__]. *)
Definition unpack (p : Page) : list (string * field_value) :=
  omap (λ kv : string * option field_value, (λ v, (kv.1, v)) <$> kv.2)
    [ ("content", VContent <$> content p);
      ("embeds", VEmbeds <$> embeds p);
      ("attachments", VAttachments <$> attachments p) ].

(** ** PaginatedView *)

Section PaginatedView.
Context {T : Type}.

(** The state of a view: the attributes set by [__init__] and the
    [disabled] flag of each of the two buttons. *)
Record PaginatedView : Type := {
  data : list T;
  index : Z;
  per_page : Z;
  previous_page_disabled : bool;
  next_page_disabled : bool
}.

(** [PaginatedView.__init__]; the decorators create the "Previous" button
    disabled and the "Next" button enabled. *)
Definition PaginatedView_init (data : list T) (starting_index per_page : Z)
    : PaginatedView :=
  {| data := data; index := starting_index; per_page := per_page;
     previous_page_disabled := true; next_page_disabled := false |}.

Definition get_page_data (v : PaginatedView) : list T :=
  Py.slice (data v) (index v) (index v + per_page v).

Definition pages (v : PaginatedView) : result Z :=
  Py.ceil_div (Z.of_nat (length (data v))) (per_page v).

Definition current_page (v : PaginatedView) : result Z :=
  let* q := Py.floordiv (index v) (per_page v) in Ok (q + 1).

Definition set_index (v : PaginatedView) (i : Z) : PaginatedView :=
  {| data := data v; index := i; per_page := per_page v;
     previous_page_disabled := previous_page_disabled v;
     next_page_disabled := next_page_disabled v |}.

Definition update_buttons (v : PaginatedView) : PaginatedView :=
  {| data := data v; index := index v; per_page := per_page v;
     previous_page_disabled := index v <=? 0;
     next_page_disabled := Z.of_nat (length (data v)) - per_page v <=? index v |}.

(** The cursor is a non-negative multiple of the page size, and the
    "Previous" button is enabled only off the first page. *)
Definition aligned (d : list T) (pp : Z) (v : PaginatedView) : Prop :=
  data v = d ∧ per_page v = pp ∧
  (∃ k, 0 ≤ k ∧ index v = k * pp) ∧
  (previous_page_disabled v = false → 0 < index v).

(** What [interaction.response.edit_message] is called with. *)
Record edit_message : Type := {
  edit_view : PaginatedView;
  edit_kwargs : list (string * field_value)
}.

(** The abstract method. *)
Variable get_page : PaginatedView → result Page.

Definition update_page (v : PaginatedView) : result edit_message :=
  let* page := get_page v in
  Ok {| edit_view := v; edit_kwargs := unpack page |}.

(** The button callbacks: the new state of the view, and the message edit
    or the exception of [get_page]. *)
Definition previous_page (v : PaginatedView) : PaginatedView * result edit_message :=
  let v1 := set_index v (index v - per_page v) in
  let v2 := update_buttons v1 in
  (v2, update_page v2).

Definition next_page (v : PaginatedView) : PaginatedView * result edit_message :=
  let v1 := set_index v (index v + per_page v) in
  let v2 := update_buttons v1 in
  (v2, update_page v2).

(** A button press, and the state after a sequence of presses. *)
Inductive press : Type := Previous | Next.

Definition fire (v : PaginatedView) (p : press) : PaginatedView :=
  match p with
  | Previous => (previous_page v).1
  | Next => (next_page v).1
  end.

Definition run (v : PaginatedView) (ps : list press) : PaginatedView :=
  fold_left fire ps v.

(** The host delivers a press only for a button that is not disabled. *)
Definition deliverable (v : PaginatedView) (p : press) : bool :=
  match p with
  | Previous => negb (previous_page_disabled v)
  | Next => negb (next_page_disabled v)
  end.

Inductive reachable_by_enabled (v0 : PaginatedView) : PaginatedView → Prop :=
| reach_start : reachable_by_enabled v0 v0
| reach_press v p :
    reachable_by_enabled v0 v →
    deliverable v p = true →
    reachable_by_enabled v0 (fire v p).

End PaginatedView.
Arguments PaginatedView T : clear implicits.
Arguments edit_message T : clear implicits.

(** The specification's [currentSlice], as it is worded: the window that
    starts at the cursor clamped into [0 .. len - 1]. *)
Definition clamp (x lo hi : Z) : Z := Z.max lo (Z.min x hi).

Definition currentSlice_spec {T : Type} (items : list T) (cursor pageSize : Z)
    : list T :=
  match items with
  | [] => []
  | _ =>
      let c := clamp cursor 0 (Z.of_nat (length items) - 1) in
      take (Z.to_nat pageSize) (drop (Z.to_nat c) items)
  end.

(** ** The domain records *)

Module Treatment.
Record t : Type := { id : Z; label : string }.
End Treatment.

Module Experiment.
Record t : Type := {
  kind : string;
  id : string;
  label : string;
  file : string;
  treatments : list Treatment.t
}.
End Experiment.

(** ** ExperimentEmbed *)

(** [ExperimentEmbed.__init__]: the embed built for one experiment. *)
Definition ExperimentEmbed (experiment : Experiment.t) : Embed :=
  {| title := Experiment.label experiment;
     description :=
       Py.join Py.nl
         (filter (λ s, Is_true (Py.truthy s))
            [ "ID: `" +:+ Experiment.id experiment +:+ "`";
              "Kind: " +:+ Py.title (Experiment.kind experiment);
              "File: `" +:+ Experiment.file experiment +:+ "`" ]);
     fields :=
       [ ("Treatments",
          Py.join Py.nl
            ((λ t, "- " +:+ t) <$>
               ("Not Eligible" :: "Control Bucket" ::
                  ((λ treatment,
                      "Treatment " +:+ Py.str_of_int (Treatment.id treatment)
                        +:+ ": " +:+ Treatment.label treatment)
                     <$> Experiment.treatments experiment)))) ] |}.

(** ** Sorting *)

(** What [sorter] returns: an [int] or a [str]. *)
Inductive sort_key : Type :=
| KInt (n : Z)
| KStr (s : string).

(** [a < b] on keys: integers by value, strings by code point; Python 3
    has no order between an [int] and a [str]. *)
Definition key_lt (a b : sort_key) : result bool :=
  match a, b with
  | KInt x, KInt y => Ok (x <? y)
  | KStr s, KStr t => Ok (String.ltb s t)
  | _, _ => Raise TypeError
  end.

#[global] Instance sort_key_eq_dec : EqDecision sort_key.
Proof. solve_decision. Defined.

Definition is_int (k : sort_key) : bool :=
  match k with
  | KInt _ => true
  | KStr _ => false
  end.

Section Sorted.
Context {A : Type}.

(** The keys of a list are all integers or all strings. *)
Definition homogeneous (l : list (sort_key * A)) : Prop :=
  ∀ x y, x ∈ l → y ∈ l → is_int x.1 = is_int y.1.

(** In a run, no element is below an earlier one. *)
Definition ascending : list (sort_key * A) → Prop :=
  StronglySorted (λ a b, key_lt b.1 a.1 = Ok false).

(** One insertion into a sorted run: the new element goes after every
    element it is not less than, which keeps the sort stable. *)
Fixpoint insert_keyed (kx : sort_key * A) (run : list (sort_key * A))
    : result (list (sort_key * A)) :=
  match run with
  | [] => Ok [kx]
  | ky :: rest =>
      let* lt := key_lt kx.1 ky.1 in
      if lt : bool then Ok (kx :: ky :: rest)
      else let* rest' := insert_keyed kx rest in Ok (ky :: rest')
  end.

Fixpoint sort_keyed (run todo : list (sort_key * A))
    : result (list (sort_key * A)) :=
  match todo with
  | [] => Ok run
  | kx :: todo' => let* run' := insert_keyed kx run in sort_keyed run' todo'
  end.

(** [sorted(data, key=key, reverse=reverse)]: the keys are computed once,
    the list is sorted stably with [<] alone, and a reversed sort reverses
    the list before and after, as [list.sort] does. An exception of a
    comparison aborts the sort. *)
Definition sorted (data : list A) (key : A → sort_key) (reverse : bool)
    : result (list A) :=
  let keyed := (λ x, (key x, x)) <$> data in
  let keyed := if reverse then rev keyed else keyed in
  let* run := sort_keyed [] keyed in
  Ok (snd <$> (if reverse then rev run else run)).

End Sorted.

(** ** ExperimentBrowserView *)

(** [ExperimentBrowserView.sorter], on ASCII ids. *)
Definition sorter (experiment : Experiment.t) : sort_key :=
  let experiment_id := Py.prefix (String.length "yyyy-mm") (Experiment.id experiment) in
  let key := Py.remove_char "-" experiment_id in
  if Py.isdigit key then KInt (Py.int key) else KStr key.

(** [ExperimentBrowserView.__init__]; of the keyword arguments it forwards
    only [starting_index] is accepted by the base class. *)
Definition ExperimentBrowserView (data : list Experiment.t) (starting_index : Z)
    : result (PaginatedView Experiment.t) :=
  let* data' := sorted data sorter true in
  Ok (PaginatedView_init data' starting_index 20).

Section Rendering.
(** [discord.utils.escape_markdown]. *)
Variable escape_markdown : string → string.

(** [ExperimentBrowserView.get_page]. *)
Definition get_page (v : PaginatedView Experiment.t) : result Page :=
  let experiments := get_page_data v in
  let* cp := current_page v in
  let* ps := pages v in
  let embed :=
    {| title := "Page " +:+ Py.str_of_int cp +:+ "/" +:+ Py.str_of_int ps;
       description :=
         Py.join Py.nl
           ((λ experiment,
               "- (" +:+ Py.title (Experiment.kind experiment) +:+ ") `"
                 +:+ Experiment.id experiment +:+ "`" +:+ Py.nl
                 +:+ "  - " +:+ escape_markdown (Experiment.label experiment))
              <$> experiments);
       fields := [] |} in
  Page_init None (Some embed) None None None.

(** ** The [experiments] command *)

(** [rapidfuzz.fuzz.partial_ratio], a score between 0 and 100. *)
Variable partial_ratio : string → string → Q.

(** [score > 85]. *)
Definition above_85 (score : Q) : bool := negb (Qle_bool score (inject_Z 85)).

(** The [for ... else] scan: the record the loop breaks on, if any. *)
Fixpoint scan (experiments : list Experiment.t) (experiment : string)
    : option Experiment.t :=
  match experiments with
  | [] => None
  | exp :: rest =>
      if above_85 (partial_ratio (Py.lower (Experiment.label exp)) experiment)
      then Some exp
      else if above_85 (partial_ratio (Experiment.id exp) experiment)
      then Some exp
      else scan rest experiment
  end.

(** A record is accepted on its lowercased label or on its raw id. *)
Definition clears (experiment : string) (exp : Experiment.t) : Prop :=
  (inject_Z 85 < partial_ratio (Py.lower (Experiment.label exp)) experiment)%Q ∨
  (inject_Z 85 < partial_ratio (Experiment.id exp) experiment)%Q.

(** The acceptance test the specification words: a score of 85 counts. *)
Definition clears_spec (experiment : string) (exp : Experiment.t) : Prop :=
  (inject_Z 85 <= partial_ratio (Py.lower (Experiment.label exp)) experiment)%Q ∨
  (inject_Z 85 <= partial_ratio (Experiment.id exp) experiment)%Q.

(** What [ctx.reply] is called with. *)
Inductive reply : Type :=
| ReplyText (content : string)
| ReplyEmbed (embed : Embed)
| ReplyView (kwargs : list (string * field_value)) (view : PaginatedView Experiment.t).

(** The body of the command, after [build = await self.get_build(...)];
    [None] is the default of the [experiment] argument. *)
Definition experiments (build_experiments : list Experiment.t)
    (experiment : option string) : result reply :=
  match experiment with
  | Some (String c q) =>
      let experiment := Py.lower (String c q) in
      match scan build_experiments experiment with
      | None => Ok (ReplyText "No such experiment found.")
      | Some exp => Ok (ReplyEmbed (ExperimentEmbed exp))
      end
  | _ =>
      let* view := ExperimentBrowserView build_experiments 0 in
      let* page := get_page view in
      Ok (ReplyView (unpack page) view)
  end.

End Rendering.

(** ** List objects

    The experiments list of a build is a mutable object shared with the
    caller of the view; a store of list objects tells a sort in place from
    a sort of a copy. *)

Module Store.

Definition loc : Type := positive.
Abbreviation heap := (gmap loc (list Experiment.t)).

(** A view whose [data] attribute is a reference. *)
Record view_obj : Type := {
  data_ref : loc;
  view_index : Z;
  view_per_page : Z;
  view_previous_disabled : bool;
  view_next_disabled : bool
}.

(** [sorted(data, ...)] on a list object: the result is a new list
    object; the argument is only read. Python has no dangling references,
    so the first branch is never taken from a well-formed store. *)
Definition sorted_obj (h : heap) (data : loc) : heap * result loc :=
  match h !! data with
  | None => (h, Raise TypeError)
  | Some xs =>
      match sorted xs sorter true with
      | Ok ys => let l := fresh (dom h) in (<[l := ys]> h, Ok l)
      | Raise e => (h, Raise e)
      end
  end.

(** [ExperimentBrowserView.__init__] on a list object. *)
Definition ExperimentBrowserView_obj (h : heap) (data : loc) (starting_index : Z)
    : heap * result view_obj :=
  let '(h', r) := sorted_obj h data in
  (h', let* l := r in
       Ok {| data_ref := l; view_index := starting_index; view_per_page := 20;
             view_previous_disabled := true; view_next_disabled := false |}).

(** The state of a view object in a store. *)
Definition deref (h : heap) (o : view_obj) : option (PaginatedView Experiment.t) :=
  xs ← h !! data_ref o;
  Some {| data := xs; index := view_index o; per_page := view_per_page o;
          previous_page_disabled := view_previous_disabled o;
          next_page_disabled := view_next_disabled o |}.

End Store.

(** ** Sample inputs *)

Module Sample.

(** A matcher given by a table: equal strings score 100; one pair of
    20-character strings that differ in three places scores 85, its Indel
    ratio 100 * 34 / 40; every other pair scores 0. *)
Definition ratio_table (a b : string) : Q :=
  if String.eqb a b then inject_Z 100
  else if String.eqb a "abcdefghijklmnopqrst" && String.eqb b "abcde1ghijk2mnopq3st"
  then inject_Z 85
  else inject_Z 0.

(** A render that never fails, for runs of the generic view. *)
Definition blank_page {T : Type} (v : PaginatedView T) : result Page :=
  Page_init None None None None None.

Definition experiment (id label : string) : Experiment.t :=
  {| Experiment.kind := "user"; Experiment.id := id; Experiment.label := label;
     Experiment.file := "app.js"; Experiment.treatments := [] |}.

(** Three items on one page of twenty, after a press of "Next", which a
    new view has enabled. *)
Definition past_the_end : PaginatedView Z :=
  run blank_page (PaginatedView_init [1; 2; 3] 0 20) [Next].

(** Three items, one per page, after a press of "Previous" on the first
    page. *)
Definition before_the_start : PaginatedView Z :=
  fire blank_page (PaginatedView_init [1; 2; 3] 0 1) Previous.

(** Five items, two per page, on the second page. *)
Definition second_of_three : PaginatedView Z :=
  run blank_page (PaginatedView_init [1; 2; 3; 4; 5] 0 2) [Next].

(** Three items, two per page, on the last page. *)
Definition last_of_two : PaginatedView Z :=
  run blank_page (PaginatedView_init [1; 2; 3] 0 2) [Next].

Definition near_miss : Experiment.t :=
  experiment "2024-01-sample" "ABCDEFGHIJKLMNOPQRST".
Definition near_miss_query : string := "ABCDE1GHIJK2MNOPQ3ST".

Definition foo_bar_first : Experiment.t := experiment "2024-03-foo" "Foo Bar".
Definition foo_bar_second : Experiment.t := experiment "2023-07-foo" "Foo Bar".
Definition unrelated : Experiment.t := experiment "2022-05-other" "Something Else".

Definition one_list : gmap positive (list Experiment.t) :=
  {[ 1%positive := [foo_bar_second; foo_bar_first] ]}.

End Sample.

(** ** Presses and cursors *)

(** The presses of "Next" of a sequence, less its presses of "Previous". *)
Fixpoint net_presses (ps : list press) : Z :=
  match ps with
  | [] => 0
  | Next :: ps' => net_presses ps' + 1
  | Previous :: ps' => net_presses ps' - 1
  end.

(** The cursors of the first [n] pages of [pp] items. *)
Definition page_cursors (n pp : Z) : list Z :=
  (λ k : nat, Z.of_nat k * pp) <$> seq 0 (Z.to_nat n).

(** The value of a decimal digit. *)
Definition digit_value (c : ascii) : Z := Z.of_nat (nat_of_ascii c) - 48.

(** ** Ranges of the builtins

    Where the models of [Py] are the builtins of CPython: [Py.isdigit] and
    [Py.int] on ASCII strings (outside them [isdigit] accepts digits that
    [int] refuses with [ValueError] or reads in another script);
    [Py.ceil_div] on integers that are floats exactly (beyond them the
    float quotient is rounded, down to 0.0 for a huge divisor);
    [Py.str_of_int] on integers of at most 4300 digits (beyond them the
    conversion raises [ValueError]). *)

(** [s.isascii()]. *)
Fixpoint isascii (s : string) : bool :=
  match s with
  | EmptyString => true
  | String c s' => (nat_of_ascii c <? 128)%nat && isascii s'
  end.

(** Integers below this bound are floats exactly, and [math.ceil] of the
    float quotient of two of them is the ceiling of their quotient. *)
Definition float_exact_bound : Z := 2 ^ 53.

(** [sys.get_int_max_str_digits()]: the digits CPython formats. *)
Definition int_max_str_digits : Z := 4300.

(** ** Retreats while enabled *)

Section Retreats.
Context {T : Type}.
Variable get_page : PaginatedView T → result Page.

(** The states a view reaches when "Previous" is pressed only while it is
    enabled; "Next" is pressed at any time, enabled or not. *)
Inductive reachable_by_enabled_previous (v0 : PaginatedView T)
    : PaginatedView T → Prop :=
| reach_previous_start : reachable_by_enabled_previous v0 v0
| reach_previous_press v p :
    reachable_by_enabled_previous v0 v →
    (p = Previous → previous_page_disabled v = false) →
    reachable_by_enabled_previous v0 (fire get_page v p).

End Retreats.

(** ** get_build

    The HTTP session is a parameter: what [self.session.get(url)] brings
    back for a URL. The server is taken to answer a URL the same way
    throughout one call, and its JSON documents to have one of the two
    shapes the module reads: the listing [{"builds": [{"build_hash": ...},
    ...]}], kept as the hashes of its entries, or one build, whose type is
    a parameter. Every call records the URLs it requests, in order. *)

Module Fetch.

Inductive error : Type :=
| ClientError
| ClientResponseError (status : Z)
| ContentError
| IndexError
| KeyError (key : string)
| Raised (e : exn).

Inductive outcome (A : Type) : Type :=
| Got (a : A)
| Failed (e : error).
Arguments Got {A} a.
Arguments Failed {A} e.

(** A computation that requests URLs: the URLs requested, and the value or
    the exception that ended it. *)
Definition fetch (A : Type) : Type := list string * outcome A.

Definition ret {A : Type} (a : A) : fetch A := ([], Got a).

Definition fail {A : Type} (e : error) : fetch A := ([], Failed e).

Definition fetch_bind {A B : Type} (m : fetch A) (k : A → fetch B) : fetch B :=
  match m.2 with
  | Got a => (m.1 ++ (k a).1, (k a).2)
  | Failed e => (m.1, Failed e)
  end.

Notation "'let+' x ':=' m 'in' k" := (fetch_bind m (λ x, k))
  (at level 10, x name, m at level 100, k at level 200).

Definition base_url : string := "https://discord.sale/api/builds/".

Section Session.
Variable Build : Type.

Inductive document : Type :=
| Listing (hashes : list string)
| BuildDoc (build : Build).

(** A response: its status, and what [await response.json()] gives. *)
Record response : Type := {
  status : Z;
  json : outcome document
}.

(** [self.session.get(url)]; a failure is an exception of the request
    itself. *)
Variable session_get : string → outcome response.

(** [async with self.session.get(url) as response:
    response.raise_for_status(); ... await response.json()]. *)
Definition request (url : string) : fetch document :=
  ([url],
   match session_get url with
   | Failed e => Failed e
   | Got response =>
       if 400 <=? status response
       then Failed (ClientResponseError (status response))
       else json response
   end).

(** [document["builds"][0]["build_hash"]]. *)
Definition first_build_hash (doc : document) : fetch string :=
  match doc with
  | Listing (h :: _) => ret h
  | Listing [] => fail IndexError
  | BuildDoc _ => fail (KeyError "builds")
  end.

Definition get_build (build_hash : option string) : fetch document :=
  let+ build_hash :=
    match build_hash with
    | None =>
        let+ doc := request base_url in
        first_build_hash doc
    | Some h => ret h
    end in
  request (base_url +:+ build_hash).

(** [build["experiments"]]. *)
Variable build_experiments : Build → list Experiment.t.

Variable escape_markdown : string → string.
Variable partial_ratio : string → string → Q.

(** The [experiments] command, from its arguments to its reply. *)
Definition experiments_command (experiment build_hash : option string) : fetch reply :=
  let+ build := get_build build_hash in
  match build with
  | BuildDoc b =>
      match experiments escape_markdown partial_ratio (build_experiments b) experiment with
      | Ok r => ret r
      | Raise e => fail (Raised e)
      end
  | Listing _ => fail (KeyError "experiments")
  end.

End Session.
Arguments Listing {Build} hashes.
Arguments BuildDoc {Build} build.
Arguments status {Build} r.
Arguments json {Build} r.

End Fetch.

(** ** Scenarios *)

Module Scenario.

(** Three records with dated ids, and their order in the browser. *)
Definition dated : list Experiment.t :=
  [Sample.foo_bar_second; Sample.unrelated; Sample.foo_bar_first].
Definition dated_sorted : list Experiment.t :=
  [Sample.foo_bar_first; Sample.foo_bar_second; Sample.unrelated].

(** A record whose id is not dated. *)
Definition bad_id : Experiment.t := Sample.experiment "bad-id" "Bad".

(** A new view over five items, two per page. *)
Definition five : PaginatedView Z := PaginatedView_init [1; 2; 3; 4; 5] 0 2.

(** A new view over three items, twenty per page. *)
Definition three : PaginatedView Z := PaginatedView_init [1; 2; 3] 0 20.

(** A server with two builds, the first of which holds [dated]. *)
Definition session (url : string) : Fetch.outcome (Fetch.response (list Experiment.t)) :=
  if String.eqb url Fetch.base_url
  then Fetch.Got {| Fetch.status := 200;
                    Fetch.json := Fetch.Got (Fetch.Listing ["abc123"; "def456"]) |}
  else if String.eqb url (Fetch.base_url +:+ "abc123")
  then Fetch.Got {| Fetch.status := 200; Fetch.json := Fetch.Got (Fetch.BuildDoc dated) |}
  else Fetch.Got {| Fetch.status := 404; Fetch.json := Fetch.Failed Fetch.ContentError |}.

(** A server that answers every request with status 503. *)
Definition down (url : string) : Fetch.outcome (Fetch.response (list Experiment.t)) :=
  Fetch.Got {| Fetch.status := 503; Fetch.json := Fetch.Failed Fetch.ContentError |}.

End Scenario.

(** * Properties *)

(** ** Slices *)

Lemma slice_nil {A : Type} (start stop : Z) : Py.slice ([] : list A) start stop = [].
Proof. unfold Py.slice. by rewrite drop_nil, take_nil. Qed.

Lemma slice_past_the_end {A : Type} (l : list A) (start stop : Z) :
  Z.of_nat (length l) ≤ start → Py.slice l start stop = [].
Proof.
  intros Hs. unfold Py.slice, Py.adjust_index.
  destruct (Z.ltb_spec start 0); [lia|].
  destruct (Z.leb_spec (Z.of_nat (length l)) start); [|lia].
  rewrite drop_ge by lia. apply take_nil.
Qed.

Lemma slice_window {A : Type} (l : list A) (start n : Z) :
  0 ≤ start < Z.of_nat (length l) → 0 ≤ n →
  Py.slice l start (start + n) = take (Z.to_nat n) (drop (Z.to_nat start) l).
Proof.
  intros Hs Hn. unfold Py.slice, Py.adjust_index.
  destruct (Z.ltb_spec start 0); [lia|].
  destruct (Z.ltb_spec (start + n) 0); [lia|].
  destruct (Z.leb_spec (Z.of_nat (length l)) start); [lia|].
  destruct (Z.leb_spec (Z.of_nat (length l)) (start + n)).
  - rewrite !take_ge; [done| |]; rewrite length_drop; lia.
  - do 2 f_equal. lia.
Qed.

Lemma slice_window_length {A : Type} (l : list A) (start n : Z) :
  0 ≤ start < Z.of_nat (length l) → 0 ≤ n →
  Z.of_nat (length (Py.slice l start (start + n)))
  = Z.min n (Z.of_nat (length l) - start).
Proof.
  intros Hs Hn. rewrite slice_window by done.
  rewrite length_take, length_drop. lia.
Qed.

(** ** The cursor and its page *)

Section ViewProperties.
Context {T : Type}.
Variable render : PaginatedView T → result Page.
Implicit Types (v : PaginatedView T) (d : list T) (pp : Z).

Lemma fire_index v p :
  index (fire render v p)
  = match p with
    | Previous => index v - per_page v
    | Next => index v + per_page v
    end.
Proof. by destruct p. Qed.

Lemma fire_data v p : data (fire render v p) = data v.
Proof. by destruct p. Qed.

Lemma fire_per_page v p : per_page (fire render v p) = per_page v.
Proof. by destruct p. Qed.

Lemma fire_previous_disabled v p :
  previous_page_disabled (fire render v p) = (index (fire render v p) <=? 0).
Proof. by destruct p. Qed.

Lemma fire_next_disabled v p :
  next_page_disabled (fire render v p)
  = (Z.of_nat (length (data v)) - per_page v <=? index (fire render v p)).
Proof. by destruct p. Qed.

(** [aligned] is an invariant of the runs in which only enabled buttons
    are pressed. *)
Lemma aligned_start d pp : aligned d pp (PaginatedView_init d 0 pp).
Proof. repeat split; [exists 0; simpl; lia | done]. Qed.

Lemma aligned_fire d pp v p :
  1 ≤ pp → aligned d pp v → deliverable v p = true →
  aligned d pp (fire render v p).
Proof.
  intros Hpp (Hd & Hp & (k & Hk & Hi) & Hprev) Hen.
  split; [by rewrite fire_data|]. split; [by rewrite fire_per_page|].
  split.
  - rewrite fire_index, Hp, Hi. destruct p; simpl in Hen.
    + apply negb_true_iff in Hen. specialize (Hprev Hen).
      exists (k - 1). split; [nia | lia].
    + exists (k + 1). split; lia.
  - rewrite fire_previous_disabled. intros H%Z.leb_gt. done.
Qed.

Lemma reachable_aligned d pp v :
  1 ≤ pp → reachable_by_enabled render (PaginatedView_init d 0 pp) v →
  aligned d pp v.
Proof.
  intros Hpp Hr. induction Hr as [|v p _ IH Hen].
  - apply aligned_start.
  - by apply aligned_fire.
Qed.

Lemma current_page_aligned d pp v :
  1 ≤ pp → aligned d pp v → ∃ n, current_page v = Ok n ∧ 1 ≤ n.
Proof.
  intros Hpp (_ & Hp & (k & Hk & Hi) & _).
  exists (k + 1). split; [|lia].
  unfold current_page, Py.floordiv. rewrite Hp, Hi.
  destruct (Z.eqb_spec pp 0); [lia|]. simpl.
  by rewrite Z.div_mul by done.
Qed.


(** C1 (amended): while the cursor is inside the dataset, [get_page_data]
    is the window the specification describes, of length
    [min(pageSize, len - cursor)]; on an empty dataset it is empty; the
    cursor is not clamped, and once it is at or past the end of the
    dataset the result is empty. *)
Theorem get_page_data_window v :
  0 ≤ per_page v →
  (0 ≤ index v < Z.of_nat (length (data v)) →
     get_page_data v = currentSlice_spec (data v) (index v) (per_page v) ∧
     Z.of_nat (length (get_page_data v))
     = Z.min (per_page v) (Z.of_nat (length (data v)) - index v)) ∧
  (data v = [] → get_page_data v = []) ∧
  (Z.of_nat (length (data v)) ≤ index v → get_page_data v = []).
Proof.
  intros Hpp. unfold get_page_data. repeat split.
  - rewrite slice_window by done. unfold currentSlice_spec, clamp.
    destruct (data v) eqn:Hd; [simpl in *; lia|]. rewrite <- Hd in *.
    do 3 f_equal. lia.
  - by apply slice_window_length.
  - intros ->. apply slice_nil.
  - apply slice_past_the_end.
Qed.

Lemma aligned_fire_previous_enabled d pp v p :
  1 ≤ pp → aligned d pp v →
  (p = Previous → previous_page_disabled v = false) →
  aligned d pp (fire render v p).
Proof.
  intros Hpp (Hd & Hp & (k & Hk & Hi) & Hprev) Hen.
  split; [by rewrite fire_data|]. split; [by rewrite fire_per_page|].
  split.
  - rewrite fire_index, Hp, Hi. destruct p.
    + specialize (Hprev (Hen eq_refl)). exists (k - 1). split; [nia | lia].
    + exists (k + 1). split; lia.
  - rewrite fire_previous_disabled. intros H%Z.leb_gt. done.
Qed.

Lemma reachable_previous_aligned d pp v :
  1 ≤ pp → reachable_by_enabled_previous render (PaginatedView_init d 0 pp) v →
  aligned d pp v.
Proof.
  intros Hpp Hr. induction Hr as [|v p _ IH Hen].
  - apply aligned_start.
  - by apply aligned_fire_previous_enabled.
Qed.

(** C4 (amended): in every state reached from cursor 0 by presses in
    which each retreat is taken while the "Previous" button is enabled,
    advances being taken at any time, [current_page] is at least 1; a
    retreat from the first page leaves the "Previous" button disabled and
    moves the cursor to [- pageSize], where [current_page] reports 0. *)
Theorem current_page_at_least_1 d pp :
  1 ≤ pp →
  (∀ v, reachable_by_enabled_previous render (PaginatedView_init d 0 pp) v →
        ∃ n, current_page v = Ok n ∧ 1 ≤ n) ∧
  previous_page_disabled (previous_page render (PaginatedView_init d 0 pp)).1 = true ∧
  index (previous_page render (PaginatedView_init d 0 pp)).1 = - pp ∧
  current_page (previous_page render (PaginatedView_init d 0 pp)).1 = Ok 0.
Proof.
  intros Hpp. split; [|split; [|split]].
  - intros v Hr. eapply current_page_aligned; [done|].
    by apply reachable_previous_aligned.
  - simpl. apply Z.leb_le. lia.
  - simpl. lia.
  - unfold current_page, Py.floordiv. simpl.
    destruct (Z.eqb_spec pp 0); [lia|]. simpl. f_equal.
    replace (0 - pp) with (-1 * pp) by lia. rewrite Z.div_mul by done. lia.
Qed.

(** C5: after every transition the "Previous" button is disabled exactly
    when the cursor is at most 0, and the "Next" button exactly when the
    cursor is at least [len(data) - per_page]. *)
Theorem buttons_follow_cursor v p :
  (previous_page_disabled (fire render v p) = true ↔ index (fire render v p) ≤ 0) ∧
  (next_page_disabled (fire render v p) = true
   ↔ Z.of_nat (length (data (fire render v p))) - per_page (fire render v p)
     ≤ index (fire render v p)) ∧
  index (fire render v p)
  = match p with
    | Previous => index v - per_page v
    | Next => index v + per_page v
    end.
Proof.
  rewrite fire_previous_disabled, fire_next_disabled, fire_data, fire_per_page.
  rewrite !Z.leb_le. split; [done|]. split; [done|]. apply fire_index.
Qed.

Lemma last_page_reaches_end v :
  1 ≤ per_page v → current_page v = pages v →
  Z.of_nat (length (data v)) ≤ index v + per_page v.
Proof.
  intros Hpp. unfold current_page, pages, Py.floordiv, Py.ceil_div.
  destruct (Z.eqb_spec (per_page v) 0); [lia|]. simpl. intros [= Heq].
  pose proof (Z.div_mod (index v) (per_page v) ltac:(done)).
  pose proof (Z.mod_pos_bound (index v) (per_page v) ltac:(lia)).
  pose proof (Z.div_mod (- Z.of_nat (length (data v))) (per_page v) ltac:(done)).
  pose proof (Z.mod_pos_bound (- Z.of_nat (length (data v))) (per_page v) ltac:(lia)).
  nia.
Qed.

(** C7: on a non-empty dataset, an advance from the last page leaves the
    "Next" button disabled and shows the empty slice, and one more advance
    shows the same slice. *)
Theorem advance_idempotent_at_end v :
  data v ≠ [] → 1 ≤ per_page v → current_page v = pages v →
  next_page_disabled (next_page render v).1 = true ∧
  next_page_disabled (next_page render (next_page render v).1).1 = true ∧
  get_page_data (next_page render v).1 = [] ∧
  get_page_data (next_page render (next_page render v).1).1
  = get_page_data (next_page render v).1.
Proof.
  intros Hne Hpp Hlast. pose proof (last_page_reaches_end v Hpp Hlast) as Hend.
  unfold get_page_data. simpl.
  rewrite !slice_past_the_end by lia.
  rewrite !Z.leb_le. repeat split; lia.
Qed.

(** The pure part of C9: an empty dataset has 0 pages and its first view
    is on page 1. *)
Lemma empty_pages pp :
  pp ≠ 0 →
  pages (PaginatedView_init ([] : list T) 0 pp) = Ok 0 ∧
  current_page (PaginatedView_init ([] : list T) 0 pp) = Ok 1.
Proof.
  intros Hpp. unfold pages, current_page, Py.ceil_div, Py.floordiv. simpl.
  destruct (Z.eqb_spec pp 0); [done|]. simpl. by rewrite Z.div_0_l.
Qed.

End ViewProperties.

(** ** Page *)

Lemma unpack_keys (p : Page) :
  (unpack p).*1
  = (if content p is Some _ then ["content"] else [])
      ++ (if embeds p is Some _ then ["embeds"] else [])
      ++ (if attachments p is Some _ then ["attachments"] else []).
Proof. by destruct p as [[?|] [?|] [?|]]. Qed.

Ltac key_absent :=
  repeat (apply not_elem_of_cons; split; [done|]); apply not_elem_of_nil.

(** C6: a [Page] given both [attachment] and [attachments] is refused with
    the [ValueError] of the conflict, and so is one given both [embed] and
    [embeds]; a [Page] given neither form of a field unpacks to a mapping
    without that field's key. *)
Theorem Page_conflict_and_omission :
  (∀ c e es a l, ∃ msg, Page_init c e es (Some a) (Some l) = Raise (ValueError msg)) ∧
  (∀ c es a l,
     Page_init c None es (Some a) (Some l)
     = Raise (ValueError "Cannot set both `attachment` and `attachments`.")) ∧
  (∀ c e a l,
     Page_init c e None (Some a) (Some l)
     = Raise (ValueError "Cannot set both `attachment` and `attachments`.")) ∧
  (∀ c e l a als,
     Page_init c (Some e) (Some l) a als
     = Raise (ValueError "Cannot set both `embed` and `embeds`.")) ∧
  (∀ c es, ∃ p, Page_init c None es None None = Ok p ∧ "attachments" ∉ (unpack p).*1) ∧
  (∀ c e, ∃ p, Page_init c e None None None = Ok p ∧ "attachments" ∉ (unpack p).*1) ∧
  (∀ c als, ∃ p, Page_init c None None None als = Ok p ∧ "embeds" ∉ (unpack p).*1) ∧
  (∀ c a, ∃ p, Page_init c None None a None = Ok p ∧ "embeds" ∉ (unpack p).*1).
Proof.
  split_and!.
  - intros c [e|] [es|] a l; eexists; reflexivity.
  - by intros c [es|] a l.
  - by intros c [e|] a l.
  - done.
  - intros c es. eexists. split; [reflexivity|].
    rewrite unpack_keys. simpl. destruct c, es; key_absent.
  - intros c [e|]; (eexists; split; [reflexivity|]);
      rewrite unpack_keys; simpl; destruct c; key_absent.
  - intros c als. eexists. split; [reflexivity|].
    rewrite unpack_keys. simpl. destruct c, als; key_absent.
  - intros c [a|]; (eexists; split; [reflexivity|]);
      rewrite unpack_keys; simpl; destruct c; key_absent.
Qed.

(** ** ExperimentEmbed *)

Lemma ExperimentEmbed_description (experiment : Experiment.t) :
  description (ExperimentEmbed experiment)
  = Py.join Py.nl
      [ "ID: `" +:+ Experiment.id experiment +:+ "`";
        "Kind: " +:+ Py.title (Experiment.kind experiment);
        "File: `" +:+ Experiment.file experiment +:+ "`" ].
Proof. reflexivity. Qed.

Lemma ExperimentEmbed_treatments (experiment : Experiment.t) :
  fields (ExperimentEmbed experiment)
  = [ ("Treatments",
       Py.join Py.nl
         ("- Not Eligible" :: "- Control Bucket" ::
            ((λ treatment,
                "- Treatment " +:+ Py.str_of_int (Treatment.id treatment)
                  +:+ ": " +:+ Treatment.label treatment)
               <$> Experiment.treatments experiment))) ].
Proof.
  unfold ExperimentEmbed. simpl. do 4 f_equal.
  rewrite <- list_fmap_compose. reflexivity.
Qed.

(** C8: the detail render of a record whose [file] is the empty string
    still has a File line, after the ID and Kind lines; the treatments list
    starts with the two synthetic entries. *)
Theorem ExperimentEmbed_empty_file :
  ExperimentEmbed
    {| Experiment.kind := "user"; Experiment.id := "2024-02-x";
       Experiment.label := "Foo Bar"; Experiment.file := "";
       Experiment.treatments := [ {| Treatment.id := 1; Treatment.label := "On" |} ] |}
  = {| title := "Foo Bar";
       description :=
         "ID: `2024-02-x`" +:+ Py.nl +:+ "Kind: User" +:+ Py.nl +:+ "File: ``";
       fields :=
         [ ("Treatments",
            "- Not Eligible" +:+ Py.nl +:+ "- Control Bucket" +:+ Py.nl
              +:+ "- Treatment 1: On") ] |}.
Proof. vm_compute. reflexivity. Qed.

(** ** Sorting *)

Lemma key_lt_Ok (a b : sort_key) (r : bool) :
  key_lt a b = Ok r → is_int a = is_int b.
Proof. by destruct a, b. Qed.

Lemma key_lt_Raise (a b : sort_key) (e : exn) :
  key_lt a b = Raise e → e = TypeError ∧ is_int a ≠ is_int b.
Proof. destruct a, b; simpl; intros [= <-] || discriminate; done. Qed.

Lemma key_lt_total (a b : sort_key) :
  is_int a = is_int b → ∃ r, key_lt a b = Ok r.
Proof. destruct a, b; simpl; intros; by eauto. Qed.

Section SortedProperties.
Context {A : Type}.
Implicit Types (kx : sort_key * A) (run todo : list (sort_key * A)).

Lemma insert_keyed_Raise kx run e :
  insert_keyed kx run = Raise e → e = TypeError.
Proof.
  induction run as [|ky rest IH]; simpl; [done|].
  destruct (key_lt kx.1 ky.1) as [[|]|e'] eqn:Hlt; simpl.
  - done.
  - destruct (insert_keyed kx rest); simpl; [done|]. intros [= <-]. by apply IH.
  - intros [= <-]. by apply key_lt_Raise in Hlt as [-> _].
Qed.

Lemma insert_keyed_Ok kx run run' :
  insert_keyed kx run = Ok run' → run' ≡ₚ kx :: run.
Proof.
  revert run'. induction run as [|ky rest IH]; simpl; intros run'.
  - by intros [= <-].
  - destruct (key_lt kx.1 ky.1) as [[|]|e'] eqn:Hlt; simpl; [by intros [= <-]| |done].
    destruct (insert_keyed kx rest) as [rest'|]; simpl; [|done].
    intros [= <-]. rewrite (IH rest' eq_refl). apply Permutation_swap.
Qed.

Lemma homogeneous_perm run run' :
  run ≡ₚ run' → homogeneous run → homogeneous run'.
Proof. intros Hp H x y Hx Hy. apply H; by rewrite Hp. Qed.

Lemma homogeneous_nil : homogeneous ([] : list (sort_key * A)).
Proof. intros x y Hx. by apply elem_of_nil in Hx. Qed.

Lemma insert_keyed_homogeneous kx run run' :
  homogeneous run → insert_keyed kx run = Ok run' → homogeneous (kx :: run).
Proof.
  intros Hrun Hins. destruct run as [|ky rest].
  - intros x y ->%list_elem_of_singleton ->%list_elem_of_singleton. done.
  - simpl in Hins. destruct (key_lt kx.1 ky.1) as [r|] eqn:Hlt; [|done].
    apply key_lt_Ok in Hlt.
    assert (∀ z, z ∈ kx :: ky :: rest → is_int z.1 = is_int ky.1) as Hall.
    { intros z [->|Hz]%elem_of_cons; [done|]. apply Hrun; [done|]. apply elem_of_cons; by left. }
    intros x y Hx Hy. by rewrite (Hall x Hx), (Hall y Hy).
Qed.

Lemma insert_keyed_total kx run :
  homogeneous (kx :: run) → ∃ run', insert_keyed kx run = Ok run'.
Proof.
  induction run as [|ky rest IH]; simpl; intros H; [by eauto|].
  destruct (key_lt_total kx.1 ky.1) as [r ->].
  { apply H; rewrite !elem_of_cons; auto. }
  simpl. destruct r; [by eauto|].
  destruct IH as [rest' ->]; [|simpl; by eauto].
  intros x y Hx Hy. apply H; rewrite ?elem_of_cons in *; tauto.
Qed.

Lemma sort_keyed_Raise run todo e :
  sort_keyed run todo = Raise e → e = TypeError.
Proof.
  revert run. induction todo as [|kx todo IH]; simpl; intros run; [done|].
  destruct (insert_keyed kx run) as [run'|e'] eqn:Hins; simpl.
  - apply IH.
  - intros [= <-]. by apply insert_keyed_Raise in Hins.
Qed.

Lemma sort_keyed_Ok run todo out :
  homogeneous run → sort_keyed run todo = Ok out →
  homogeneous (run ++ todo) ∧ out ≡ₚ run ++ todo.
Proof.
  revert run. induction todo as [|kx todo IH]; simpl; intros run Hrun.
  - intros [= <-]. by rewrite app_nil_r.
  - destruct (insert_keyed kx run) as [run'|] eqn:Hins; simpl; [|done].
    intros Hsort.
    pose proof (insert_keyed_Ok _ _ _ Hins) as Hperm.
    pose proof (insert_keyed_homogeneous _ _ _ Hrun Hins) as Hhom.
    destruct (IH run') as [Hall Hout]; [|done|].
    { by apply (homogeneous_perm (kx :: run)). }
    assert (run' ++ todo ≡ₚ run ++ kx :: todo) as Hp.
    { rewrite Hperm. simpl. by rewrite Permutation_middle. }
    split; [by apply (homogeneous_perm (run' ++ todo))|by rewrite Hout].
Qed.

Lemma sort_keyed_total run todo :
  homogeneous (run ++ todo) → ∃ out, sort_keyed run todo = Ok out.
Proof.
  revert run. induction todo as [|kx todo IH]; simpl; intros run H; [by eauto|].
  destruct (insert_keyed_total kx run) as [run' Hins].
  { intros x y Hx Hy. apply H; rewrite elem_of_app, !elem_of_cons in *; tauto. }
  rewrite Hins. simpl. apply IH.
  apply (homogeneous_perm (run ++ kx :: todo)); [|done].
  rewrite (insert_keyed_Ok _ _ _ Hins). simpl. by rewrite Permutation_middle.
Qed.

Lemma keyed_homogeneous (key : A → sort_key) (data : list A) (reverse : bool) :
  homogeneous (if reverse then rev ((λ x, (key x, x)) <$> data)
               else (λ x, (key x, x)) <$> data)
  ↔ ∀ x y, x ∈ data → y ∈ data → is_int (key x) = is_int (key y).
Proof.
  assert (∀ k, k ∈ (if reverse then rev ((λ x, (key x, x)) <$> data)
                    else (λ x, (key x, x)) <$> data)
               ↔ ∃ x, k = (key x, x) ∧ x ∈ data) as Hin.
  { intros k.
    destruct reverse; [rewrite list_elem_of_In, <- in_rev, <- list_elem_of_In|];
      apply list_elem_of_fmap. }
  split.
  - intros H x y Hx Hy. apply (H (key x, x) (key y, y)); apply Hin; by eauto.
  - intros H k1 k2 (x & -> & Hx)%Hin (y & -> & Hy)%Hin. by apply H.
Qed.

(** A sort that succeeds returns a permutation of homogeneous data. *)
Lemma sorted_Ok (data : list A) key reverse out :
  sorted data key reverse = Ok out →
  (∀ x y, x ∈ data → y ∈ data → is_int (key x) = is_int (key y)) ∧ out ≡ₚ data.
Proof.
  unfold sorted.
  destruct (sort_keyed _ _) as [run|] eqn:Hsort; simpl; [|done]. intros [= <-].
  apply sort_keyed_Ok in Hsort as [Hhom Hperm]; [|apply homogeneous_nil].
  simpl in *. split; [by apply (keyed_homogeneous key data reverse)|].
  assert (snd <$> run ≡ₚ data) as Hrun.
  { rewrite Hperm. destruct reverse; [rewrite <- Permutation_rev|];
      rewrite <- list_fmap_compose; by rewrite list_fmap_id. }
  destruct reverse; [|done]. by rewrite <- Permutation_rev.
Qed.

(** A sort of homogeneous data succeeds. *)
Lemma sorted_total (data : list A) key reverse :
  (∀ x y, x ∈ data → y ∈ data → is_int (key x) = is_int (key y)) →
  ∃ out, sorted data key reverse = Ok out.
Proof.
  intros H. unfold sorted.
  destruct (sort_keyed_total [] (if reverse then rev ((λ x, (key x, x)) <$> data)
                                 else (λ x, (key x, x)) <$> data)) as [run ->].
  { simpl. by apply keyed_homogeneous. }
  simpl. by eauto.
Qed.

(** A sort of data with an integer key and a string key raises
    [TypeError]. *)
Lemma sorted_mixed (data : list A) key reverse x y :
  x ∈ data → y ∈ data → is_int (key x) ≠ is_int (key y) →
  sorted data key reverse = Raise TypeError.
Proof.
  intros Hx Hy Hne. destruct (sorted data key reverse) as [out|e] eqn:Hs.
  - apply sorted_Ok in Hs as [H _]. destruct Hne. by apply H.
  - f_equal. unfold sorted in Hs.
    destruct (sort_keyed _ _) as [run|e'] eqn:Hsort; simpl in Hs; [done|].
    injection Hs as <-. by apply sort_keyed_Raise in Hsort.
Qed.

End SortedProperties.

(** *** The order of the keys *)

Lemma ascii_compare_refl (a : ascii) : Ascii.compare a a = Eq.
Proof. apply N.compare_refl. Qed.

Lemma ascii_compare_lt_trans (a b c : ascii) :
  Ascii.compare a b = Lt → Ascii.compare b c = Lt → Ascii.compare a c = Lt.
Proof. unfold Ascii.compare. rewrite !N.compare_lt_iff. apply N.lt_trans. Qed.

Lemma string_compare_refl (s : string) : String.compare s s = Eq.
Proof. induction s as [|a s IH]; simpl; [done|]. by rewrite ascii_compare_refl. Qed.

Lemma string_compare_lt_trans (s t u : string) :
  String.compare s t = Lt → String.compare t u = Lt → String.compare s u = Lt.
Proof.
  revert t u. induction s as [|a s IH]; intros [|b t] [|c u]; simpl; try done.
  destruct (Ascii.compare a b) eqn:Hab; try done.
  - apply Ascii.compare_eq_iff in Hab as ->.
    destruct (Ascii.compare b c); try done. apply IH.
  - destruct (Ascii.compare b c) eqn:Hbc; try done.
    + apply Ascii.compare_eq_iff in Hbc as <-. by rewrite Hab.
    + by rewrite (ascii_compare_lt_trans a b c).
Qed.

Lemma string_ltb_lt (s t : string) : String.ltb s t = true ↔ String.compare s t = Lt.
Proof. unfold String.ltb. by destruct (String.compare s t). Qed.

Lemma key_lt_irrefl (a : sort_key) : key_lt a a = Ok false.
Proof.
  destruct a as [n|s]; simpl; f_equal.
  - apply Z.ltb_irrefl.
  - unfold String.ltb. by rewrite string_compare_refl.
Qed.

Lemma key_lt_asym (a b : sort_key) : key_lt a b = Ok true → key_lt b a = Ok false.
Proof.
  destruct a as [n|s], b as [m|t]; simpl; try done; intros [= H]; f_equal.
  - apply Z.ltb_lt in H. apply Z.ltb_ge. lia.
  - apply string_ltb_lt in H. unfold String.ltb.
    rewrite String.compare_antisym, H. done.
Qed.

Lemma key_lt_trans (a b c : sort_key) :
  key_lt a b = Ok true → key_lt b c = Ok true → key_lt a c = Ok true.
Proof.
  destruct a as [n|s], b as [m|t], c as [p|u]; simpl; try done;
    intros [= H1] [= H2]; f_equal.
  - apply Z.ltb_lt in H1, H2. apply Z.ltb_lt. lia.
  - apply string_ltb_lt in H1, H2. apply string_ltb_lt.
    by apply (string_compare_lt_trans s t u).
Qed.

(** If [x < y] and [z] is not below [y], then [z] is not below [x]. *)
Lemma key_lt_not_below (x y z : sort_key) :
  key_lt x y = Ok true → key_lt z y = Ok false → key_lt z x = Ok false.
Proof.
  intros Hxy Hzy. destruct (key_lt z x) as [[|]|e] eqn:Hzx; [|done|].
  - rewrite (key_lt_trans z x y Hzx Hxy) in Hzy. done.
  - apply key_lt_Raise in Hzx as [_ Hne]. apply key_lt_Ok in Hxy, Hzy. congruence.
Qed.

Section SortedOrder.
Context {A : Type}.
Implicit Types (kx : sort_key * A) (run todo : list (sort_key * A)).

Lemma insert_keyed_ascending kx run run' :
  ascending run → insert_keyed kx run = Ok run' → ascending run'.
Proof.
  revert run'. induction run as [|ky rest IH]; simpl; intros run' Hrun.
  - intros [= <-]. repeat constructor.
  - apply StronglySorted_inv in Hrun as [Hrest Hky].
    destruct (key_lt kx.1 ky.1) as [[|]|] eqn:Hlt; simpl; [| |done].
    + intros [= <-]. constructor; [by constructor|].
      constructor; [by apply key_lt_asym|].
      eapply Forall_impl; [exact Hky|]. simpl. intros z Hz.
      by apply (key_lt_not_below kx.1 ky.1).
    + destruct (insert_keyed kx rest) as [rest'|] eqn:Hins; simpl; [|done].
      intros [= <-]. constructor; [by apply IH|].
      rewrite (insert_keyed_Ok _ _ _ Hins). by constructor.
Qed.

Lemma sort_keyed_ascending run todo out :
  ascending run → sort_keyed run todo = Ok out → ascending out.
Proof.
  revert run. induction todo as [|kx todo IH]; simpl; intros run Hrun.
  - by intros [= <-].
  - destruct (insert_keyed kx run) as [run'|] eqn:Hins; simpl; [|done].
    apply IH. by apply (insert_keyed_ascending kx run).
Qed.

Lemma filter_none {B : Type} (P : B → Prop) `{∀ x, Decision (P x)} (l : list B) :
  Forall (λ x, ¬ P x) l → filter P l = [].
Proof. induction 1; [done|]. by rewrite filter_cons_False. Qed.

Lemma filter_rev {B : Type} (P : B → Prop) `{∀ x, Decision (P x)} (l : list B) :
  filter P (rev l) = rev (filter P l).
Proof.
  induction l as [|x l IH]; [done|]. simpl. rewrite filter_app, IH, filter_cons.
  destruct (decide (P x)); simpl.
  - by rewrite filter_cons_True, filter_nil.
  - by rewrite filter_cons_False, filter_nil, app_nil_r.
Qed.

(** An inserted element goes behind the elements of the run with its key. *)
Lemma insert_keyed_filter (k : sort_key) kx run run' :
  ascending run → insert_keyed kx run = Ok run' →
  filter (λ p, p.1 = k) run' = filter (λ p, p.1 = k) run ++ filter (λ p, p.1 = k) [kx].
Proof.
  revert run'. induction run as [|ky rest IH]; simpl; intros run' Hrun.
  - by intros [= <-].
  - apply StronglySorted_inv in Hrun as [Hrest Hky].
    destruct (key_lt kx.1 ky.1) as [[|]|] eqn:Hlt; simpl; [| |done].
    + intros [= <-]. rewrite (filter_cons _ kx), (filter_cons _ kx []), filter_nil.
      destruct (decide (kx.1 = k)) as [Hk|Hk]; [|by rewrite app_nil_r].
      rewrite (filter_none _ (ky :: rest)); [done|].
      constructor.
      * intros Hy. rewrite Hy, <- Hk, key_lt_irrefl in Hlt. done.
      * eapply Forall_impl; [exact Hky|]. simpl. intros z Hz Hzk.
        rewrite Hzk, <- Hk, Hlt in Hz. done.
    + destruct (insert_keyed kx rest) as [rest'|] eqn:Hins; simpl; [|done].
      intros [= <-]. rewrite !(filter_cons _ ky), (IH rest' Hrest eq_refl).
      by destruct (decide (ky.1 = k)).
Qed.

Lemma sort_keyed_filter (k : sort_key) run todo out :
  ascending run → sort_keyed run todo = Ok out →
  filter (λ p, p.1 = k) out = filter (λ p, p.1 = k) run ++ filter (λ p, p.1 = k) todo.
Proof.
  revert run. induction todo as [|kx todo IH]; simpl; intros run Hrun.
  - intros [= <-]. by rewrite filter_nil, app_nil_r.
  - destruct (insert_keyed kx run) as [run'|] eqn:Hins; simpl; [|done].
    intros Hsort. rewrite (IH run' (insert_keyed_ascending _ _ _ Hrun Hins) Hsort).
    rewrite (insert_keyed_filter k _ _ _ Hrun Hins), <- app_assoc.
    by rewrite <- filter_app.
Qed.

Lemma ascending_rev run :
  ascending run → StronglySorted (λ a b, key_lt a.1 b.1 = Ok false) (rev run).
Proof.
  induction 1 as [|a l _ IH Ha]; simpl; [constructor|].
  apply StronglySorted_app_2; [|done|repeat constructor].
  intros x y Hx ->%list_elem_of_singleton.
  rewrite list_elem_of_In, <- in_rev, <- list_elem_of_In in Hx.
  by apply (proj1 (Forall_forall _ _) Ha).
Qed.

(** A reversed sort that succeeds returns its data in descending order of
    the keys, the records of equal key in their original order. *)
Lemma sorted_descending (data : list A) (key : A → sort_key) (out : list A) :
  sorted data key true = Ok out →
  StronglySorted (λ a b, key_lt (key a) (key b) = Ok false) out ∧
  ∀ k, filter (λ x, key x = k) out = filter (λ x, key x = k) data.
Proof.
  unfold sorted.
  destruct (sort_keyed _ _) as [run|] eqn:Hsort; simpl; [|done]. intros [= <-].
  assert (ascending ([] : list (sort_key * A))) as Hnil by constructor.
  pose proof (sort_keyed_ascending _ _ _ Hnil Hsort) as Hasc.
  assert (Forall (λ p, p.1 = key p.2) run) as Hkeys.
  { apply sort_keyed_Ok in Hsort as [_ Hperm]; [|apply homogeneous_nil].
    rewrite Hperm. simpl. rewrite <- Permutation_rev.
    apply Forall_fmap, Forall_true. done. }
  assert (∀ l : list (sort_key * A), ∀ k,
            Forall (λ p, p.1 = key p.2) l →
            filter (λ x, key x = k) (snd <$> l) = snd <$> filter (λ p, p.1 = k) l) as Hfmap.
  { intros l k. induction 1 as [|p l Hp _ IH]; [done|].
    rewrite fmap_cons, !filter_cons, IH. rewrite <- Hp.
    by destruct (decide (p.1 = k)). }
  split.
  - apply ascending_rev in Hasc.
    assert (Forall (λ p, p.1 = key p.2) (rev run)) as Hkeys'.
    { apply Forall_forall. intros p Hp.
      rewrite list_elem_of_In, <- in_rev, <- list_elem_of_In in Hp.
      by apply (proj1 (Forall_forall _ _) Hkeys). }
    clear Hsort Hkeys. induction Hasc as [|p l _ IH Hp]; [constructor|].
    apply Forall_cons in Hkeys' as [Hpk Hl]. rewrite fmap_cons.
    constructor; [by apply IH|].
    apply Forall_fmap. apply Forall_forall. intros q Hq. simpl.
    rewrite <- Hpk, <- (proj1 (Forall_forall _ _) Hl q Hq).
    by apply (proj1 (Forall_forall _ _) Hp).
  - intros k. rewrite Hfmap.
    2:{ apply Forall_forall. intros p Hp.
        rewrite list_elem_of_In, <- in_rev, <- list_elem_of_In in Hp.
        by apply (proj1 (Forall_forall _ _) Hkeys). }
    rewrite filter_rev, (sort_keyed_filter k _ _ _ Hnil Hsort), filter_nil, app_nil_l.
    rewrite filter_rev, rev_involutive.
    rewrite <- (Hfmap ((λ x, (key x, x)) <$> data) k).
    + rewrite <- list_fmap_compose. by rewrite list_fmap_id.
    + apply Forall_fmap, Forall_true. done.
Qed.

End SortedOrder.

(** A view that is built holds the caller's records in descending order of
    their keys, records of equal key in the caller's order. *)
Lemma ExperimentBrowserView_sorted (records : list Experiment.t) (starting_index : Z) v :
  ExperimentBrowserView records starting_index = Ok v →
  data v ≡ₚ records ∧
  StronglySorted (λ a b, key_lt (sorter a) (sorter b) = Ok false) (data v) ∧
  (∀ k, filter (λ x, sorter x = k) (data v) = filter (λ x, sorter x = k) records) ∧
  index v = starting_index ∧ per_page v = 20.
Proof.
  unfold ExperimentBrowserView.
  destruct (sorted records sorter true) as [out|] eqn:Hs; simpl; [|done]. intros [= <-].
  pose proof (sorted_Ok _ _ _ _ Hs) as [_ Hperm].
  pose proof (sorted_descending _ _ _ Hs) as [Hdesc Hstable].
  done.
Qed.

(** No view is built over records whose ids give both kinds of key. *)
Lemma ExperimentBrowserView_mixed (data : list Experiment.t) (starting_index : Z) x y :
  x ∈ data → y ∈ data → is_int (sorter x) ≠ is_int (sorter y) →
  ExperimentBrowserView data starting_index = Raise TypeError.
Proof.
  intros Hx Hy Hne. unfold ExperimentBrowserView.
  by rewrite (sorted_mixed data sorter true x y).
Qed.

(** C2: on the records with ids 2024-02-x, 2023-11-y and bad-id the sort
    compares the integer key 202311 with the string key "badid", and the
    construction of the view raises [TypeError]. *)
Theorem ExperimentBrowserView_bad_id :
  sorter {| Experiment.kind := "user"; Experiment.id := "2023-11-y";
            Experiment.label := "B"; Experiment.file := "b.js";
            Experiment.treatments := [] |} = KInt 202311 ∧
  sorter {| Experiment.kind := "user"; Experiment.id := "bad-id";
            Experiment.label := "C"; Experiment.file := "c.js";
            Experiment.treatments := [] |} = KStr "badid" ∧
  ExperimentBrowserView
    [ {| Experiment.kind := "user"; Experiment.id := "2024-02-x";
         Experiment.label := "A"; Experiment.file := "a.js";
         Experiment.treatments := [] |};
      {| Experiment.kind := "user"; Experiment.id := "2023-11-y";
         Experiment.label := "B"; Experiment.file := "b.js";
         Experiment.treatments := [] |};
      {| Experiment.kind := "user"; Experiment.id := "bad-id";
         Experiment.label := "C"; Experiment.file := "c.js";
         Experiment.treatments := [] |} ] 0
  = Raise TypeError.
Proof. split_and!; vm_compute; reflexivity. Qed.

(** ** The lookup path *)

Lemma above_85_spec (score : Q) : above_85 score = true ↔ (inject_Z 85 < score)%Q.
Proof.
  unfold above_85. rewrite negb_true_iff, <- not_true_iff_false, Qle_bool_iff.
  split; [apply Qnot_le_lt | apply Qlt_not_le].
Qed.

Section Lookup.
Variable escape_markdown : string → string.
Variable partial_ratio : string → string → Q.
Implicit Types (exps : list Experiment.t) (exp : Experiment.t).

Lemma scan_hit exps exp query :
  clears partial_ratio query exp →
  scan partial_ratio (exp :: exps) query = Some exp.
Proof.
  intros [H|H]; apply above_85_spec in H; simpl; rewrite H; [done|].
  by destruct (above_85 (partial_ratio (Py.lower (Experiment.label exp)) query)).
Qed.

Lemma scan_miss exps exp query :
  ¬ clears partial_ratio query exp →
  scan partial_ratio (exp :: exps) query = scan partial_ratio exps query.
Proof.
  intros H. simpl.
  destruct (above_85 (partial_ratio (Py.lower (Experiment.label exp)) query)) eqn:H1.
  { destruct H. left. by apply above_85_spec. }
  destruct (above_85 (partial_ratio (Experiment.id exp) query)) eqn:H2; [|done].
  destruct H. right. by apply above_85_spec.
Qed.

Lemma scan_first exps query pre exp post :
  exps = pre ++ exp :: post →
  Forall (λ e, ¬ clears partial_ratio query e) pre →
  clears partial_ratio query exp →
  scan partial_ratio exps query = Some exp.
Proof.
  intros -> Hpre Hexp. induction Hpre as [|e pre He _ IH].
  - by apply scan_hit.
  - rewrite <- app_comm_cons. by rewrite scan_miss.
Qed.

Lemma scan_none exps query :
  Forall (λ e, ¬ clears partial_ratio query e) exps →
  scan partial_ratio exps query = None.
Proof.
  induction 1 as [|e exps He _ IH]; [done|]. by rewrite scan_miss.
Qed.

(** C3 (amended): for a non-empty query the lookup scans the experiments
    in the order of the dataset and replies with the detail embed of the
    first record whose score against the lowercased label, or else
    against the raw id, is strictly above 85; when no record scores above
    85 on either check it replies with the plain text and no view. *)
Theorem lookup_first_above_85 exps (query : string) :
  query ≠ "" →
  (∀ pre exp post,
     exps = pre ++ exp :: post →
     Forall (λ e, ¬ clears partial_ratio (Py.lower query) e) pre →
     clears partial_ratio (Py.lower query) exp →
     experiments escape_markdown partial_ratio exps (Some query)
     = Ok (ReplyEmbed (ExperimentEmbed exp))) ∧
  (Forall (λ e, ¬ clears partial_ratio (Py.lower query) e) exps →
   experiments escape_markdown partial_ratio exps (Some query)
   = Ok (ReplyText "No such experiment found.")).
Proof.
  intros Hq. destruct query as [|c q]; [done|]. split.
  - intros pre exp post Hexps Hpre Hexp. unfold experiments.
    by rewrite (scan_first exps _ pre exp post).
  - intros Hall. unfold experiments. by rewrite scan_none.
Qed.

End Lookup.

(** ** The empty dataset *)

(** C9: an empty dataset has 0 pages while its view reports page 1, and the
    header of the page the browser renders for it reads "Page 1/0". *)
Theorem empty_dataset_page_1_of_0 :
  (∀ (T : Type) (pp : Z),
     pp ≠ 0 →
     pages (PaginatedView_init ([] : list T) 0 pp) = Ok 0 ∧
     current_page (PaginatedView_init ([] : list T) 0 pp) = Ok 1) ∧
  (∀ escape_markdown,
     ∃ v, ExperimentBrowserView [] 0 = Ok v ∧
          pages v = Ok 0 ∧ current_page v = Ok 1 ∧
          get_page escape_markdown v
          = Ok {| content := None;
                  embeds := Some [ {| title := "Page 1/0"; description := "";
                                      fields := [] |} ];
                  attachments := None |}).
Proof.
  split.
  - intros T pp Hpp. by apply empty_pages.
  - intros esc. eexists. split; [reflexivity|].
    split_and!; vm_compute; reflexivity.
Qed.

(** ** The caller's list *)

(** C10: the construction of the browser leaves the caller's list object as
    it was, whether the sort succeeds or raises; the view refers to a list
    object that did not exist before, no object of the store is changed,
    and the view it builds is the one built from the caller's elements. *)
Theorem caller_list_untouched (h : Store.heap) (data : Store.loc)
    (xs : list Experiment.t) (starting_index : Z) :
  h !! data = Some xs →
  (Store.ExperimentBrowserView_obj h data starting_index).1 !! data = Some xs ∧
  h ⊆ (Store.ExperimentBrowserView_obj h data starting_index).1 ∧
  match (Store.ExperimentBrowserView_obj h data starting_index).2 with
  | Ok o =>
      Store.data_ref o ≠ data ∧ h !! Store.data_ref o = None ∧
      Ok <$> Store.deref (Store.ExperimentBrowserView_obj h data starting_index).1 o
      = Some (ExperimentBrowserView xs starting_index)
  | Raise e => ExperimentBrowserView xs starting_index = Raise e
  end.
Proof.
  intros Hdata.
  unfold Store.ExperimentBrowserView_obj, Store.sorted_obj, ExperimentBrowserView.
  rewrite Hdata. destruct (sorted xs sorter true) as [ys|e]; simpl; [|done].
  pose proof (is_fresh (dom h)) as Hfresh.
  apply not_elem_of_dom in Hfresh.
  assert (fresh (dom h) ≠ data) as Hne by congruence.
  split_and!.
  - by rewrite lookup_insert_ne.
  - by apply insert_subseteq.
  - done.
  - done.
  - unfold Store.deref. simpl. by rewrite lookup_insert_eq.
Qed.

(** * Concrete runs *)

Example slice_in_range : Py.slice [1; 2; 3; 4; 5] 1 3 = [2; 3].
Proof. reflexivity. Qed.
Example slice_past_end : Py.slice [1; 2; 3] 3 4 = [].
Proof. reflexivity. Qed.
Example slice_negative : Py.slice [1; 2; 3] (-1) 0 = [].
Proof. reflexivity. Qed.
Example slice_from_end : Py.slice [1; 2; 3; 4; 5] (-4) (-2) = [2; 3].
Proof. reflexivity. Qed.
Example title_user : Py.title "user" = "User".
Proof. reflexivity. Qed.
Example title_mixed : Py.title "gUILD exp-a" = "Guild Exp-A".
Proof. reflexivity. Qed.
Example int_leading_zero : Py.int "0012" = 12.
Proof. reflexivity. Qed.
Example str_of_int_neg : Py.str_of_int (-42) = "-42".
Proof. vm_compute. reflexivity. Qed.

Example pages_45_by_20 :
  pages (PaginatedView_init (replicate 45 0) 0 20) = Ok 3.
Proof. reflexivity. Qed.

Example one_item_browser :
  get_page_data (PaginatedView_init [Sample.unrelated] 0 20) = [Sample.unrelated].
Proof. reflexivity. Qed.

Example numeric_ids_descending :
  (λ v : PaginatedView Experiment.t, Experiment.id <$> data v)
    <$> (match ExperimentBrowserView
                 [Sample.foo_bar_second; Sample.unrelated; Sample.foo_bar_first] 0 with
         | Ok v => Some v
         | Raise _ => None
         end)
  = Some ["2024-03-foo"; "2023-07-foo"; "2022-05-other"].
Proof. vm_compute. reflexivity. Qed.

(** A counterexample to C1 as stated: a new view over three items, twenty
    per page, has its "Next" button enabled; after a press the cursor is 20,
    [get_page_data] is empty, and the clamped window of the specification
    is the last item. *)
Lemma get_page_data_not_clamped :
  reachable_by_enabled Sample.blank_page (PaginatedView_init [1; 2; 3] 0 20)
    Sample.past_the_end ∧
  index Sample.past_the_end = 20 ∧
  get_page_data Sample.past_the_end = [] ∧
  currentSlice_spec (data Sample.past_the_end) (index Sample.past_the_end)
    (per_page Sample.past_the_end) = [3] ∧
  get_page_data Sample.past_the_end
  ≠ currentSlice_spec (data Sample.past_the_end) (index Sample.past_the_end)
      (per_page Sample.past_the_end) ∧
  Z.of_nat (length (get_page_data Sample.past_the_end))
  ≠ Z.min (per_page Sample.past_the_end)
      (Z.of_nat (length (data Sample.past_the_end))
       - clamp (index Sample.past_the_end) 0
           (Z.of_nat (length (data Sample.past_the_end)) - 1)).
Proof.
  split_and!; try (vm_compute; congruence).
  apply (reach_press Sample.blank_page _ _ Next); [apply reach_start|reflexivity].
Qed.

(** A counterexample to C4 as stated: a retreat from the first page moves
    the cursor to -1, and [current_page] reports 0. *)
Lemma current_page_below_1 :
  index Sample.before_the_start = -1 ∧
  previous_page_disabled Sample.before_the_start = true ∧
  current_page Sample.before_the_start = Ok 0 ∧
  ¬ (∃ n, current_page Sample.before_the_start = Ok n ∧ 1 ≤ n).
Proof.
  split_and!; try reflexivity.
  intros (n & Hn & Hle). vm_compute in Hn. injection Hn as <-. lia.
Qed.

(** A counterexample to C3 as stated: a record whose label scores exactly
    85 clears the threshold as the specification words it, and the lookup
    replies that no such experiment was found. *)
Lemma lookup_rejects_85 :
  Sample.ratio_table (Py.lower (Experiment.label Sample.near_miss))
    (Py.lower Sample.near_miss_query) = inject_Z 85 ∧
  clears_spec Sample.ratio_table (Py.lower Sample.near_miss_query) Sample.near_miss ∧
  experiments (λ s, s) Sample.ratio_table [Sample.near_miss] (Some Sample.near_miss_query)
  = Ok (ReplyText "No such experiment found.") ∧
  experiments (λ s, s) Sample.ratio_table [Sample.near_miss] (Some Sample.near_miss_query)
  ≠ Ok (ReplyEmbed (ExperimentEmbed Sample.near_miss)).
Proof.
  split_and!.
  - reflexivity.
  - left. vm_compute. discriminate.
  - reflexivity.
  - vm_compute. discriminate.
Qed.

(** * Instances of the conditional theorems *)

Lemma get_page_data_window_witness :
  0 ≤ per_page Sample.second_of_three ∧
  0 ≤ index Sample.second_of_three
    < Z.of_nat (length (data Sample.second_of_three)) ∧
  get_page_data Sample.second_of_three
  = currentSlice_spec (data Sample.second_of_three) (index Sample.second_of_three)
      (per_page Sample.second_of_three) ∧
  Z.of_nat (length (get_page_data Sample.second_of_three))
  = Z.min (per_page Sample.second_of_three)
      (Z.of_nat (length (data Sample.second_of_three)) - index Sample.second_of_three).
Proof.
  assert (0 ≤ per_page Sample.second_of_three) as Hpp by (simpl; lia).
  assert (0 ≤ index Sample.second_of_three
          < Z.of_nat (length (data Sample.second_of_three))) as Hin by (simpl; lia).
  destruct (get_page_data_window Sample.second_of_three Hpp) as [Hwin _].
  destruct (Hwin Hin) as [Heq Hlen].
  split_and!; [exact Hpp|apply Hin|apply Hin|exact Heq|exact Hlen].
Defined.

Lemma current_page_at_least_1_witness :
  1 ≤ 20 ∧
  next_page_disabled Sample.past_the_end = true ∧
  reachable_by_enabled_previous Sample.blank_page
    (PaginatedView_init [1; 2; 3] 0 20) (fire Sample.blank_page Sample.past_the_end Next) ∧
  ∃ n, current_page (fire Sample.blank_page Sample.past_the_end Next) = Ok n ∧ 1 ≤ n.
Proof.
  assert (1 ≤ 20) as Hpp by lia.
  assert (reachable_by_enabled_previous Sample.blank_page
            (PaginatedView_init [1; 2; 3] 0 20)
            (fire Sample.blank_page Sample.past_the_end Next)) as Hr.
  { apply (reach_previous_press Sample.blank_page _ _ Next); [|discriminate].
    apply (reach_previous_press Sample.blank_page _ _ Next); [|discriminate].
    apply reach_previous_start. }
  destruct (current_page_at_least_1 Sample.blank_page [1; 2; 3] 20 Hpp) as [Hall _].
  split_and!; [exact Hpp|reflexivity|exact Hr|exact (Hall _ Hr)].
Defined.

Lemma advance_idempotent_at_end_witness :
  data Sample.last_of_two ≠ [] ∧
  1 ≤ per_page Sample.last_of_two ∧
  current_page Sample.last_of_two = pages Sample.last_of_two ∧
  next_page_disabled (next_page Sample.blank_page Sample.last_of_two).1 = true ∧
  get_page_data
    (next_page Sample.blank_page (next_page Sample.blank_page Sample.last_of_two).1).1
  = get_page_data (next_page Sample.blank_page Sample.last_of_two).1.
Proof.
  assert (data Sample.last_of_two ≠ []) as Hne by discriminate.
  assert (1 ≤ per_page Sample.last_of_two) as Hpp by (simpl; lia).
  assert (current_page Sample.last_of_two = pages Sample.last_of_two) as Hlast
    by reflexivity.
  destruct (advance_idempotent_at_end Sample.blank_page Sample.last_of_two Hne Hpp Hlast)
    as (H1 & _ & _ & H2).
  split_and!; [exact Hne|exact Hpp|exact Hlast|exact H1|exact H2].
Defined.

Lemma lookup_first_above_85_witness :
  "Foo Bar" ≠ "" ∧
  experiments (λ s, s) Sample.ratio_table
    [Sample.unrelated; Sample.foo_bar_first; Sample.foo_bar_second] (Some "Foo Bar")
  = Ok (ReplyEmbed (ExperimentEmbed Sample.foo_bar_first)) ∧
  experiments (λ s, s) Sample.ratio_table [Sample.unrelated] (Some "Foo Bar")
  = Ok (ReplyText "No such experiment found.").
Proof.
  assert ("Foo Bar" ≠ "") as Hq by discriminate.
  assert (¬ clears Sample.ratio_table (Py.lower "Foo Bar") Sample.unrelated) as Hmiss.
  { intros [H|H]; vm_compute in H; discriminate. }
  assert (clears Sample.ratio_table (Py.lower "Foo Bar") Sample.foo_bar_first) as Hhit.
  { left. reflexivity. }
  split_and!.
  - exact Hq.
  - destruct (lookup_first_above_85 (λ s, s) Sample.ratio_table
                [Sample.unrelated; Sample.foo_bar_first; Sample.foo_bar_second]
                "Foo Bar" Hq) as [Hfirst _].
    apply (Hfirst [Sample.unrelated] Sample.foo_bar_first [Sample.foo_bar_second]).
    + reflexivity.
    + constructor; [exact Hmiss|constructor].
    + exact Hhit.
  - destruct (lookup_first_above_85 (λ s, s) Sample.ratio_table [Sample.unrelated]
                "Foo Bar" Hq) as [_ Hnone].
    apply Hnone. constructor; [exact Hmiss|constructor].
Defined.

Lemma empty_dataset_page_1_of_0_witness :
  20 ≠ 0 ∧
  pages (PaginatedView_init ([] : list Experiment.t) 0 20) = Ok 0 ∧
  current_page (PaginatedView_init ([] : list Experiment.t) 0 20) = Ok 1.
Proof.
  assert (20 ≠ 0) as Hpp by discriminate.
  destruct empty_dataset_page_1_of_0 as [Hgen _].
  split; [exact Hpp|exact (Hgen Experiment.t 20 Hpp)].
Defined.

Lemma caller_list_untouched_witness :
  Sample.one_list !! 1%positive = Some [Sample.foo_bar_second; Sample.foo_bar_first] ∧
  (Store.ExperimentBrowserView_obj Sample.one_list 1%positive 0).1 !! 1%positive
  = Some [Sample.foo_bar_second; Sample.foo_bar_first].
Proof.
  assert (Sample.one_list !! 1%positive
          = Some [Sample.foo_bar_second; Sample.foo_bar_first]) as Hdata
    by reflexivity.
  destruct (caller_list_untouched Sample.one_list 1%positive _ 0 Hdata) as [Hsame _].
  split; [exact Hdata|exact Hsame].
Defined.

(** * Further properties *)

(** ** Pages of a dataset *)

Lemma slice_take_drop {A : Type} (l : list A) (start n : Z) :
  0 ≤ start → 0 ≤ n →
  Py.slice l start (start + n) = take (Z.to_nat n) (drop (Z.to_nat start) l).
Proof.
  intros Hs Hn. destruct (Z.lt_ge_cases start (Z.of_nat (length l))).
  - by apply slice_window.
  - rewrite slice_past_the_end by done. rewrite drop_ge by lia. by rewrite take_nil.
Qed.

Lemma slice_from_the_end {A : Type} (l : list A) (start stop : Z) :
  - Z.of_nat (length l) ≤ start → start ≤ stop → stop < 0 →
  Py.slice l start stop
  = take (Z.to_nat (stop - start)) (drop (Z.to_nat (Z.of_nat (length l) + start)) l).
Proof.
  intros H1 H2 H3. unfold Py.slice, Py.adjust_index.
  destruct (Z.ltb_spec start 0); [|lia].
  destruct (Z.ltb_spec stop 0); [|lia].
  destruct (Z.ltb_spec (start + Z.of_nat (length l)) 0); [lia|].
  destruct (Z.ltb_spec (stop + Z.of_nat (length l)) 0); [lia|].
  do 2 f_equal; lia.
Qed.

Lemma ceil_div_bounds (len pp : Z) :
  1 ≤ pp → ∃ n, Py.ceil_div len pp = Ok n ∧ (n - 1) * pp < len ≤ n * pp.
Proof.
  intros Hpp. unfold Py.ceil_div. destruct (Z.eqb_spec pp 0); [lia|].
  eexists. split; [reflexivity|].
  pose proof (Z.div_mod (- len) pp ltac:(done)).
  pose proof (Z.mod_pos_bound (- len) pp ltac:(lia)). nia.
Qed.

Lemma concat_windows {A : Type} (l : list A) (pp m : nat) :
  concat ((λ k : nat, take pp (drop (k * pp) l)) <$> seq 0 m) = take (m * pp) l.
Proof.
  induction m as [|m IH]; [done|].
  rewrite seq_S, fmap_app, concat_app, IH. simpl.
  rewrite app_nil_r, take_take_drop. f_equal. lia.
Qed.

Section MoreViewProperties.
Context {T : Type}.
Variable render : PaginatedView T → result Page.
Implicit Types (v : PaginatedView T) (d : list T) (pp : Z) (ps : list press).

(** With a page size and a dataset length that are floats exactly, [pages]
    is the least number of pages that hold the dataset. *)
Theorem pages_least_cover v :
  1 ≤ per_page v < float_exact_bound →
  Z.of_nat (length (data v)) < float_exact_bound →
  ∃ n, pages v = Ok n ∧
       (n - 1) * per_page v < Z.of_nat (length (data v)) ≤ n * per_page v.
Proof. intros [Hpp _] _. by apply ceil_div_bounds. Qed.

(** With a page size and a dataset length that are floats exactly, the
    slices at the cursors of the [pages] pages, one after the other, are
    the dataset. *)
Theorem pages_partition_data v n :
  1 ≤ per_page v < float_exact_bound →
  Z.of_nat (length (data v)) < float_exact_bound →
  pages v = Ok n →
  concat ((λ c, get_page_data (set_index v c)) <$> page_cursors n (per_page v))
  = data v.
Proof.
  intros [Hpp _] _ Hn. destruct (ceil_div_bounds (Z.of_nat (length (data v))) (per_page v) Hpp)
    as (n' & Hn' & Hlo & Hhi).
  unfold pages in Hn. rewrite Hn' in Hn. injection Hn as ->.
  unfold page_cursors. rewrite <- list_fmap_compose.
  rewrite (list_fmap_ext _
             (λ k : nat, take (Z.to_nat (per_page v))
                           (drop (k * Z.to_nat (per_page v)) (data v)))).
  2:{ intros _ k _. unfold compose, get_page_data, set_index. cbn [data index per_page].
      rewrite slice_take_drop by nia. do 2 f_equal. nia. }
  rewrite concat_windows. apply take_ge. nia.
Qed.

Lemma update_set_index_ext v v' (i j : Z) :
  data v = data v' → per_page v = per_page v' → i = j →
  update_buttons (set_index v i) = update_buttons (set_index v' j).
Proof. intros Hd Hp ->. unfold update_buttons, set_index. simpl. by rewrite Hd, Hp. Qed.

Lemma fire_closed v p :
  fire render v p
  = update_buttons (set_index v (index v + net_presses [p] * per_page v)).
Proof.
  destruct p; simpl; apply update_set_index_ext; try done; lia.
Qed.

Lemma run_closed v ps :
  ps ≠ [] →
  run render v ps
  = update_buttons (set_index v (index v + net_presses ps * per_page v)).
Proof.
  revert v. induction ps as [|p ps IH]; intros v Hne; [done|].
  destruct ps as [|q ps]; [apply fire_closed|].
  change (run render v (p :: q :: ps)) with (run render (fire render v p) (q :: ps)).
  rewrite IH by done. apply update_set_index_ext.
  - by rewrite fire_data.
  - by rewrite fire_per_page.
  - rewrite fire_index, fire_per_page. destruct p; simpl; lia.
Qed.

Lemma run_per_page v ps : per_page (run render v ps) = per_page v.
Proof.
  destruct ps as [|p ps]; [done|]. by rewrite (run_closed v (p :: ps)).
Qed.

Lemma run_data v ps : data (run render v ps) = data v.
Proof.
  destruct ps as [|p ps]; [done|]. by rewrite (run_closed v (p :: ps)).
Qed.

Lemma net_presses_perm ps ps' : ps ≡ₚ ps' → net_presses ps = net_presses ps'.
Proof.
  induction 1 as [|p ps ps' _ IH|p q ps|ps1 ps2 ps3 _ IH1 _ IH2]; simpl.
  - done.
  - destruct p; lia.
  - destruct p, q; lia.
  - lia.
Qed.

(** A sequence of presses never changes the dataset or the page size, it
    moves the cursor by the page size times the presses of "Next" less the
    presses of "Previous", and the state it leads to, buttons included,
    does not depend on the order of the presses. *)
Theorem run_net_presses v ps :
  data (run render v ps) = data v ∧
  per_page (run render v ps) = per_page v ∧
  index (run render v ps) = index v + net_presses ps * per_page v ∧
  (∀ ps', ps ≡ₚ ps' → run render v ps' = run render v ps).
Proof.
  destruct ps as [|p ps].
  - split_and!; try done; [simpl; lia|].
    intros ps' Hp. by apply Permutation_nil in Hp as ->.
  - rewrite (run_closed v (p :: ps)) by done. split_and!; try done.
    intros ps' Hp. rewrite run_closed.
    + by rewrite (net_presses_perm _ _ Hp).
    + intros ->. by apply Permutation_nil_r in Hp.
Qed.

(** "Previous" undoes "Next" and "Next" undoes "Previous": the view is back
    at its cursor, with the buttons recomputed there. *)
Theorem previous_next_round_trip v :
  fire render (fire render v Next) Previous = update_buttons v ∧
  fire render (fire render v Previous) Next = update_buttons v.
Proof.
  split.
  - change (fire render (fire render v Next) Previous)
      with (run render v [Next; Previous]).
    rewrite (run_closed v [Next; Previous]) by done.
    replace (update_buttons v) with (update_buttons (set_index v (index v)))
      by by destruct v.
    apply update_set_index_ext; simpl; try done; lia.
  - change (fire render (fire render v Previous) Next)
      with (run render v [Previous; Next]).
    rewrite (run_closed v [Previous; Next]) by done.
    replace (update_buttons v) with (update_buttons (set_index v (index v)))
      by by destruct v.
    apply update_set_index_ext; simpl; try done; lia.
Qed.

End MoreViewProperties.

(** ** Navigation with enabled buttons *)

Section GuardedNavigation.
Context {T : Type}.
Variable render : PaginatedView T → result Page.
Implicit Types (v : PaginatedView T) (d : list T) (pp : Z) (p : press).

Lemma in_range_fire d pp v p :
  1 ≤ pp → aligned d pp v →
  index v < Z.of_nat (length d) →
  (next_page_disabled v = false → index v + pp < Z.of_nat (length d)) →
  deliverable v p = true →
  index (fire render v p) < Z.of_nat (length d) ∧
  (next_page_disabled (fire render v p) = false →
   index (fire render v p) + pp < Z.of_nat (length d)).
Proof.
  intros Hpp (Hd & Hp & _ & _) Hlt Hnext Hen. split.
  - rewrite fire_index, Hp. destruct p; simpl in Hen; [lia|].
    apply negb_true_iff in Hen. specialize (Hnext Hen). lia.
  - rewrite fire_next_disabled, Hd, Hp. intros H%Z.leb_gt. lia.
Qed.

Lemma reachable_in_range d pp v :
  1 ≤ pp → pp < Z.of_nat (length d) →
  reachable_by_enabled render (PaginatedView_init d 0 pp) v →
  aligned d pp v ∧ index v < Z.of_nat (length d) ∧
  (next_page_disabled v = false → index v + pp < Z.of_nat (length d)).
Proof.
  intros Hpp Hlen Hr. induction Hr as [|v p _ (Hal & Hlt & Hnext) Hen].
  - split; [apply aligned_start|]. simpl. lia.
  - split; [by apply aligned_fire|]. by apply (in_range_fire d pp v p).
Qed.

(** Over a dataset of more than one page, presses of enabled buttons keep
    the cursor inside the dataset, on a multiple of the page size: the page
    shown is never empty and its number is between 1 and [pages]. *)
Theorem enabled_presses_stay_in_range d pp v :
  1 ≤ pp → pp < Z.of_nat (length d) →
  reachable_by_enabled render (PaginatedView_init d 0 pp) v →
  0 ≤ index v < Z.of_nat (length (data v)) ∧
  (∃ k, index v = k * per_page v) ∧
  get_page_data v ≠ [] ∧
  ∃ n m, current_page v = Ok n ∧ pages v = Ok m ∧ 1 ≤ n ≤ m.
Proof.
  intros Hpp Hlen Hr.
  destruct (reachable_in_range d pp v Hpp Hlen Hr)
    as ((Hd & Hp & (k & Hk & Hi) & _) & Hlt & _).
  rewrite Hd, Hp. split_and!; [lia|lia|by exists k| |].
  - intros Hnil. pose proof (slice_window_length (data v) (index v) (per_page v)) as Hl.
    unfold get_page_data in Hnil. rewrite Hnil, Hd, Hp in Hl. simpl in Hl. lia.
  - destruct (ceil_div_bounds (Z.of_nat (length d)) pp Hpp) as (m & Hm & Hlo & Hhi).
    exists (k + 1), m. unfold pages, current_page, Py.floordiv. rewrite Hd, Hp, Hi.
    destruct (Z.eqb_spec pp 0); [lia|]. simpl. rewrite Z.div_mul by done.
    split_and!; [done|done|lia|nia].
Qed.

(** After a press of an enabled button, "Previous" is disabled exactly on
    page 1 and "Next" exactly on the last page or beyond. *)
Theorem buttons_follow_page_number d pp v p :
  1 ≤ pp →
  reachable_by_enabled render (PaginatedView_init d 0 pp) v →
  deliverable v p = true →
  ∃ n m, current_page (fire render v p) = Ok n ∧ pages (fire render v p) = Ok m ∧
         (previous_page_disabled (fire render v p) = true ↔ n = 1) ∧
         (next_page_disabled (fire render v p) = true ↔ m ≤ n).
Proof.
  intros Hpp Hr Hen.
  pose proof (aligned_fire render d pp v p Hpp (reachable_aligned render d pp v Hpp Hr) Hen)
    as (Hd & Hp & (k & Hk & Hi) & _).
  destruct (ceil_div_bounds (Z.of_nat (length d)) pp Hpp) as (m & Hm & Hlo & Hhi).
  exists (k + 1), m. unfold pages, current_page, Py.floordiv.
  rewrite fire_previous_disabled, fire_next_disabled.
  rewrite fire_data, fire_per_page in *. rewrite Hd, Hp, Hi.
  destruct (Z.eqb_spec pp 0); [lia|]. simpl. rewrite Z.div_mul by done.
  rewrite !Z.leb_le. split_and!; [done|done|nia|nia].
Qed.

(** A new view over a dataset that fits one page, of a size that is a
    float exactly, has "Next" enabled; its press shows an empty page
    numbered 2 of 1. *)
Theorem single_page_next_overshoots d pp :
  1 ≤ pp < float_exact_bound → 0 < Z.of_nat (length d) ≤ pp →
  deliverable (PaginatedView_init d 0 pp) Next = true ∧
  get_page_data (fire render (PaginatedView_init d 0 pp) Next) = [] ∧
  current_page (fire render (PaginatedView_init d 0 pp) Next) = Ok 2 ∧
  pages (fire render (PaginatedView_init d 0 pp) Next) = Ok 1 ∧
  previous_page_disabled (fire render (PaginatedView_init d 0 pp) Next) = false ∧
  next_page_disabled (fire render (PaginatedView_init d 0 pp) Next) = true.
Proof.
  intros [Hpp _] Hlen. split_and!.
  - done.
  - unfold get_page_data. simpl. apply slice_past_the_end. lia.
  - unfold current_page, Py.floordiv. simpl.
    destruct (Z.eqb_spec pp 0); [lia|]. simpl. by rewrite Z.div_same.
  - destruct (ceil_div_bounds (Z.of_nat (length d)) pp Hpp) as (m & Hm & Hlo & Hhi).
    unfold pages. simpl. rewrite Hm. f_equal. nia.
  - simpl. apply Z.leb_gt. lia.
  - simpl. apply Z.leb_le. lia.
Qed.

(** A retreat from cursor 0 is not clamped: it shows an empty page, and a
    second retreat shows the page that ends one page before the end of the
    dataset. *)
Theorem retreat_below_zero v :
  index v = 0 → 1 ≤ per_page v →
  get_page_data (fire render v Previous) = [] ∧
  (2 * per_page v ≤ Z.of_nat (length (data v)) →
   get_page_data (fire render (fire render v Previous) Previous)
   = take (Z.to_nat (per_page v))
       (drop (Z.to_nat (Z.of_nat (length (data v)) - 2 * per_page v)) (data v))).
Proof.
  intros Hi Hpp. unfold get_page_data. simpl. rewrite Hi. split.
  - unfold Py.slice, Py.adjust_index.
    destruct (Z.ltb_spec (0 - per_page v) 0); [|lia].
    replace (0 - per_page v + per_page v) with 0 by lia. simpl.
    destruct (Z.leb_spec (Z.of_nat (length (data v))) 0);
      destruct (Z.ltb_spec (0 - per_page v + Z.of_nat (length (data v))) 0);
      apply length_zero_iff_nil; rewrite length_take, length_drop; lia.
  - intros Hlen. rewrite slice_from_the_end by lia. do 2 f_equal; lia.
Qed.

(** Whatever the cursor, a page is a run of consecutive items of the
    dataset, and it holds at most [per_page] of them. *)
Theorem get_page_data_contiguous v :
  0 ≤ per_page v →
  (∃ before after, data v = before ++ get_page_data v ++ after) ∧
  Z.of_nat (length (get_page_data v)) ≤ per_page v.
Proof.
  intros Hpp. unfold get_page_data, Py.slice.
  set (n := Z.of_nat (length (data v))).
  set (s := Py.adjust_index (index v) n).
  set (e := Py.adjust_index (index v + per_page v) n).
  split.
  - exists (take (Z.to_nat s) (data v)),
      (drop (Z.to_nat (e - s)) (drop (Z.to_nat s) (data v))).
    by rewrite take_drop, take_drop.
  - rewrite length_take, length_drop.
    assert (e - s ≤ per_page v ∨ e - s ≤ 0) as Hes; [|lia].
    unfold s, e, Py.adjust_index.
    repeat match goal with
           | |- context [Z.ltb ?a ?b] => destruct (Z.ltb_spec a b)
           | |- context [Z.leb ?a ?b] => destruct (Z.leb_spec a b)
           end; lia.
Qed.

End GuardedNavigation.

(** ** Construction of pages *)

(** [Page] is built exactly when no field is given in both its forms; when
    both fields are, the error is the one of [embed]. *)
Theorem Page_init_succeeds_iff c e es a als :
  ((∃ p, Page_init c e es a als = Ok p)
   ↔ (e = None ∨ es = None) ∧ (a = None ∨ als = None)) ∧
  (e ≠ None → es ≠ None →
   Page_init c e es a als = Raise (ValueError "Cannot set both `embed` and `embeds`.")) ∧
  (∀ err, Page_init c e es a als = Raise err → ∃ msg, err = ValueError msg).
Proof.
  destruct e as [e|], es as [es|], a as [a|], als as [als|]; simpl;
    (split_and!;
     [ split; [intros [p Hp]; by (discriminate Hp || auto)
              | intros [[?|?] [?|?]]; by (discriminate || eauto)]
     | intros; by (congruence || done)
     | intros err [= <-] || intros err [=]; eauto ]).
Qed.

(** What a [Page] unpacks to: the content that was given, also when it
    is empty, a single [embed] or [attachment] as a list of one, a list as
    it was given, also when it is empty, and nothing for what was not
    given; the keys come in the order content, embeds, attachments. *)
Theorem unpack_Page_init c e es a als p :
  Page_init c e es a als = Ok p →
  unpack p
  = (if c is Some s then [("content", VContent s)] else [])
      ++ (match e, es with
          | Some x, _ => [("embeds", VEmbeds [x])]
          | None, Some l => [("embeds", VEmbeds l)]
          | None, None => []
          end)
      ++ (match a, als with
          | Some x, _ => [("attachments", VAttachments [x])]
          | None, Some l => [("attachments", VAttachments l)]
          | None, None => []
          end).
Proof.
  destruct c, e, es, a, als; simpl; intros [= <-] || intros [=]; reflexivity.
Qed.

(** ** Keys of the sort *)

Lemma is_digit_not_dash (c : ascii) : Py.is_digit c = true → Ascii.eqb "-" c = false.
Proof.
  intros H. destruct (Ascii.eqb_spec "-"%char c) as [<-|]; [|done].
  vm_compute in H. discriminate.
Qed.

Lemma remove_dash_digit (c : ascii) (s : string) :
  Py.is_digit c = true →
  Py.remove_char "-" (String c s) = String c (Py.remove_char "-" s).
Proof.
  intros H.
  change (Py.remove_char "-" (String c s))
    with (if Ascii.eqb "-" c then Py.remove_char "-" s
          else String c (Py.remove_char "-" s)).
  by rewrite is_digit_not_dash.
Qed.

(** The key of an id of the shape [yyyy-mm...] is the integer [yyyymm]. *)
Theorem sorter_year_month (experiment : Experiment.t)
    (y1 y2 y3 y4 m1 m2 : ascii) (rest : string) :
  Experiment.id experiment
  = String y1 (String y2 (String y3 (String y4
      (String "-" (String m1 (String m2 rest)))))) →
  Forall (λ c, Py.is_digit c = true) [y1; y2; y3; y4; m1; m2] →
  sorter experiment
  = KInt (100000 * digit_value y1 + 10000 * digit_value y2 + 1000 * digit_value y3
          + 100 * digit_value y4 + 10 * digit_value m1 + digit_value m2).
Proof.
  intros Hid Hd. unfold sorter. rewrite Hid.
  repeat (apply Forall_cons in Hd as [? Hd]).
  cbn [String.length Py.prefix].
  rewrite !remove_dash_digit by done.
  change (Py.remove_char "-" (String "-" (String m1 (String m2 ""))))
    with (Py.remove_char "-" (String m1 (String m2 ""))).
  rewrite !remove_dash_digit by done.
  cbn [Py.remove_char Py.isdigit Py.all_digits].
  repeat match goal with H : Py.is_digit _ = true |- _ => rewrite H; clear H end.
  cbn [andb]. unfold Py.int, digit_value. cbn [Py.int_from]. f_equal. lia.
Qed.

(** ** Construction of the browser *)

(** Over records with ASCII ids, the browser is built exactly when the
    keys of the records are all integers or all strings; the only
    exception it raises is [TypeError]. *)
Theorem ExperimentBrowserView_succeeds_iff (records : list Experiment.t)
    (starting_index : Z) :
  (∀ x, x ∈ records → isascii (Experiment.id x) = true) →
  ((∃ v, ExperimentBrowserView records starting_index = Ok v)
   ↔ ∀ x y, x ∈ records → y ∈ records → is_int (sorter x) = is_int (sorter y)) ∧
  (∀ e, ExperimentBrowserView records starting_index = Raise e → e = TypeError).
Proof.
  intros _. unfold ExperimentBrowserView. split; [split|].
  - intros [v Hv]. destruct (sorted records sorter true) as [out|] eqn:Hs; [|done].
    by apply sorted_Ok in Hs as [H _].
  - intros H. destruct (sorted_total records sorter true H) as [out ->]. by eauto.
  - intros e. destruct (sorted records sorter true) as [out|e'] eqn:Hs; simpl; [done|].
    intros [= <-]. unfold sorted in Hs.
    destruct (sort_keyed _ _) as [run|e''] eqn:Hsort; simpl in Hs; [done|].
    injection Hs as <-. by apply sort_keyed_Raise in Hsort.
Qed.

(** A browser that is built shows the caller's records in descending order
    of their keys, records of equal key in the caller's order, twenty per
    page, from the given cursor, with "Previous" disabled and "Next"
    enabled. *)
Theorem ExperimentBrowserView_stable_descending (records : list Experiment.t)
    (starting_index : Z) v :
  ExperimentBrowserView records starting_index = Ok v →
  data v ≡ₚ records ∧
  StronglySorted (λ a b, key_lt (sorter a) (sorter b) = Ok false) (data v) ∧
  (∀ k, filter (λ x, sorter x = k) (data v) = filter (λ x, sorter x = k) records) ∧
  index v = starting_index ∧ per_page v = 20 ∧
  previous_page_disabled v = true ∧ next_page_disabled v = false.
Proof.
  intros Hv. destruct (ExperimentBrowserView_sorted records starting_index v Hv)
    as (H1 & H2 & H3 & H4 & H5).
  unfold ExperimentBrowserView in Hv.
  destruct (sorted records sorter true); [|done]. injection Hv as <-.
  by split_and!.
Qed.

(** ** Rendering of the browser *)

Section BrowserProperties.
Variable escape_markdown : string → string.
Variable partial_ratio : string → string → Q.
Implicit Types (v : PaginatedView Experiment.t) (exps : list Experiment.t).

Lemma get_page_Ok v :
  per_page v ≠ 0 →
  get_page escape_markdown v
  = Ok {| content := None;
          embeds :=
            Some [ {| title :=
                        "Page " +:+ Py.str_of_int (index v / per_page v + 1) +:+ "/"
                          +:+ Py.str_of_int (- (- Z.of_nat (length (data v)) / per_page v));
                      description :=
                        Py.join Py.nl
                          ((λ experiment,
                              "- (" +:+ Py.title (Experiment.kind experiment) +:+ ") `"
                                +:+ Experiment.id experiment +:+ "`" +:+ Py.nl
                                +:+ "  - " +:+ escape_markdown (Experiment.label experiment))
                             <$> get_page_data v);
                      fields := [] |} ];
          attachments := None |}.
Proof.
  intros Hpp. unfold get_page, current_page, pages, Py.floordiv, Py.ceil_div.
  destruct (Z.eqb_spec (per_page v) 0); [done|]. reflexivity.
Qed.

(** At a cursor whose page number CPython formats (at most 4300 digits),
    [get_page] raises exactly when the page size is 0, and then it raises
    [ZeroDivisionError]; otherwise its page unpacks to the one key
    [embeds], with one embed. *)
Theorem get_page_raises_iff v :
  Z.abs (index v) < 10 ^ (int_max_str_digits - 1) →
  (get_page escape_markdown v = Raise ZeroDivisionError ↔ per_page v = 0) ∧
  (per_page v ≠ 0 →
   ∃ page embed, get_page escape_markdown v = Ok page ∧
                 unpack page = [("embeds", VEmbeds [embed])]).
Proof.
  intros _. split; [split|].
  - intros H. destruct (Z.eq_dec (per_page v) 0) as [|Hne]; [done|].
    rewrite (get_page_Ok v Hne) in H. discriminate.
  - intros H. unfold get_page, current_page, Py.floordiv. by rewrite H.
  - intros Hne. rewrite (get_page_Ok v Hne). by eauto.
Qed.

(** A browser that was built, over a dataset whose length is a float
    exactly, renders after every sequence of presses that keeps the cursor
    within the integers CPython formats (at most 4300 digits): the page has
    one embed, titled with the page number and the page count, and one more
    press edits the message with the view and the page of the state it
    leads to. *)
Theorem browser_always_renders (records : list Experiment.t) (starting_index : Z)
    v (ps : list press) (p : press) :
  Z.of_nat (length records) < float_exact_bound →
  Z.abs starting_index + 20 * (Z.of_nat (length ps) + 1)
  < 10 ^ (int_max_str_digits - 1) →
  ExperimentBrowserView records starting_index = Ok v →
  (∃ cp n embed,
     current_page (run (get_page escape_markdown) v ps) = Ok cp ∧
     pages (run (get_page escape_markdown) v ps) = Ok n ∧
     get_page escape_markdown (run (get_page escape_markdown) v ps)
     = Ok {| content := None; embeds := Some [embed]; attachments := None |} ∧
     title embed = "Page " +:+ Py.str_of_int cp +:+ "/" +:+ Py.str_of_int n) ∧
  (∃ embed,
     get_page escape_markdown
       (fire (get_page escape_markdown) (run (get_page escape_markdown) v ps) p)
     = Ok {| content := None; embeds := Some [embed]; attachments := None |} ∧
     match p with
     | Previous =>
         previous_page (get_page escape_markdown) (run (get_page escape_markdown) v ps)
     | Next =>
         next_page (get_page escape_markdown) (run (get_page escape_markdown) v ps)
     end
     = (fire (get_page escape_markdown) (run (get_page escape_markdown) v ps) p,
        Ok {| edit_view :=
                fire (get_page escape_markdown) (run (get_page escape_markdown) v ps) p;
              edit_kwargs := [("embeds", VEmbeds [embed])] |})).
Proof.
  intros _ _ Hv. apply ExperimentBrowserView_sorted in Hv as (_ & _ & _ & _ & Hpp).
  set (w := run (get_page escape_markdown) v ps).
  assert (per_page w = 20) as Hw by (unfold w; by rewrite run_per_page).
  split.
  - eexists _, _, _. rewrite get_page_Ok by lia.
    unfold current_page, pages, Py.floordiv, Py.ceil_div. rewrite Hw. simpl.
    split_and!; reflexivity.
  - assert (per_page (fire (get_page escape_markdown) w p) ≠ 0) as Hne
      by (rewrite fire_per_page; lia).
    eexists. split; [by apply get_page_Ok|].
    destruct p; unfold previous_page, next_page, update_page;
      (unfold fire, previous_page, next_page in Hne; simpl in Hne;
       rewrite get_page_Ok by done; reflexivity).
Qed.

Lemma to_lower_idem (c : ascii) : Py.to_lower (Py.to_lower c) = Py.to_lower c.
Proof. by destruct c as [[] [] [] [] [] [] [] []]. Qed.

Lemma lower_idem (s : string) : Py.lower (Py.lower s) = Py.lower s.
Proof. induction s as [|c s IH]; simpl; [done|]. by rewrite to_lower_idem, IH. Qed.

Lemma lookup_same_lower exps (query query' : string) :
  query ≠ "" → query' ≠ "" → Py.lower query = Py.lower query' →
  experiments escape_markdown partial_ratio exps (Some query)
  = experiments escape_markdown partial_ratio exps (Some query').
Proof.
  intros Hq Hq' Heq. destruct query as [|c q], query' as [|c' q']; try done.
  unfold experiments. by rewrite Heq.
Qed.

(** The lookup does not depend on the case of the query: two non-empty
    queries with the same lowercase form, and so a query and its lowercase
    form, get the same reply. *)
Theorem lookup_ignores_query_case exps (query query' : string) :
  query ≠ "" → query' ≠ "" → Py.lower query = Py.lower query' →
  experiments escape_markdown partial_ratio exps (Some query)
  = experiments escape_markdown partial_ratio exps (Some query') ∧
  experiments escape_markdown partial_ratio exps (Some (Py.lower query))
  = experiments escape_markdown partial_ratio exps (Some query).
Proof.
  intros Hq Hq' Heq. split; [by apply lookup_same_lower|].
  apply lookup_same_lower; [by destruct query|done|apply lower_idem].
Qed.

Lemma scan_Some_inv exps (query : string) exp :
  scan partial_ratio exps query = Some exp →
  exp ∈ exps ∧ clears partial_ratio query exp.
Proof.
  induction exps as [|e exps IH]; [done|]. simpl.
  destruct (above_85 (partial_ratio (Py.lower (Experiment.label e)) query)) eqn:H1.
  { intros [= <-]. split; [apply elem_of_cons; by left|]. left. by apply above_85_spec. }
  destruct (above_85 (partial_ratio (Experiment.id e) query)) eqn:H2.
  { intros [= <-]. split; [apply elem_of_cons; by left|]. right. by apply above_85_spec. }
  intros [Hin Hc]%IH. split; [apply elem_of_cons; by right|done].
Qed.

Lemma scan_None_inv exps (query : string) :
  scan partial_ratio exps query = None →
  Forall (λ e, ¬ clears partial_ratio query e) exps.
Proof.
  induction exps as [|e exps IH]; [constructor|]. simpl.
  destruct (above_85 (partial_ratio (Py.lower (Experiment.label e)) query)) eqn:H1; [done|].
  destruct (above_85 (partial_ratio (Experiment.id e) query)) eqn:H2; [done|].
  intros Hs. constructor; [|by apply IH].
  intros [H|H]; apply above_85_spec in H; congruence.
Qed.

(** A lookup never raises and never builds a view: it replies with the
    embed of a record of the dataset that scores above 85 against the
    lowercased query, or, when no record of the dataset does, with the
    text; on an empty dataset it replies with the text. *)
Theorem lookup_replies_from_dataset exps (query : string) :
  query ≠ "" →
  ((∃ exp, exp ∈ exps ∧ clears partial_ratio (Py.lower query) exp ∧
           experiments escape_markdown partial_ratio exps (Some query)
           = Ok (ReplyEmbed (ExperimentEmbed exp))) ∨
   (Forall (λ e, ¬ clears partial_ratio (Py.lower query) e) exps ∧
    experiments escape_markdown partial_ratio exps (Some query)
    = Ok (ReplyText "No such experiment found."))) ∧
  experiments escape_markdown partial_ratio [] (Some query)
  = Ok (ReplyText "No such experiment found.").
Proof.
  intros Hq. destruct query as [|c q]; [done|]. split; [|done].
  unfold experiments.
  destruct (scan partial_ratio exps (Py.lower (String c q))) as [exp|] eqn:Hs.
  - left. apply scan_Some_inv in Hs as [Hin Hc]. by eauto.
  - right. by apply scan_None_inv in Hs.
Qed.

(** On records with ASCII ids that give both kinds of key the command
    without a query, or with the empty query, raises [TypeError], while
    every lookup with a non-empty query replies, with a text or an embed. *)
Theorem lookup_survives_mixed_ids exps x y :
  (∀ z, z ∈ exps → isascii (Experiment.id z) = true) →
  x ∈ exps → y ∈ exps → is_int (sorter x) ≠ is_int (sorter y) →
  experiments escape_markdown partial_ratio exps None = Raise TypeError ∧
  experiments escape_markdown partial_ratio exps (Some "") = Raise TypeError ∧
  ∀ query, query ≠ "" →
    (experiments escape_markdown partial_ratio exps (Some query)
     = Ok (ReplyText "No such experiment found.")) ∨
    (∃ exp, exp ∈ exps ∧
            experiments escape_markdown partial_ratio exps (Some query)
            = Ok (ReplyEmbed (ExperimentEmbed exp))).
Proof.
  intros _ Hx Hy Hne. split_and!.
  - unfold experiments. by rewrite (ExperimentBrowserView_mixed exps 0 x y).
  - unfold experiments. by rewrite (ExperimentBrowserView_mixed exps 0 x y).
  - intros [|c q] Hq; [done|]. unfold experiments.
    destruct (scan partial_ratio exps (Py.lower (String c q))) as [exp|] eqn:Hs;
      [right|by left].
    exists exp. split; [|done]. by apply scan_Some_inv in Hs as [Hin _].
Qed.

(** Without a query, and with the empty query, the command on records
    with ASCII ids whose keys are all integers or all strings, of a number
    that is a float exactly, replies with a view at cursor 0 over the
    sorted records, twenty per page, "Previous" disabled and "Next"
    enabled, and with one embed titled "Page 1/n" for the page count n. *)
Theorem browse_reply exps :
  (∀ x, x ∈ exps → isascii (Experiment.id x) = true) →
  Z.of_nat (length exps) < float_exact_bound →
  (∀ x y, x ∈ exps → y ∈ exps → is_int (sorter x) = is_int (sorter y)) →
  ∃ view embed n,
    experiments escape_markdown partial_ratio exps None
    = Ok (ReplyView [("embeds", VEmbeds [embed])] view) ∧
    experiments escape_markdown partial_ratio exps (Some "")
    = Ok (ReplyView [("embeds", VEmbeds [embed])] view) ∧
    ExperimentBrowserView exps 0 = Ok view ∧
    data view ≡ₚ exps ∧ index view = 0 ∧ per_page view = 20 ∧
    previous_page_disabled view = true ∧ next_page_disabled view = false ∧
    pages view = Ok n ∧ title embed = "Page 1/" +:+ Py.str_of_int n ∧
    get_page escape_markdown view
    = Ok {| content := None; embeds := Some [embed]; attachments := None |}.
Proof.
  intros _ _ Hhom. destruct (sorted_total exps sorter true Hhom) as [out Hout].
  pose proof (sorted_Ok _ _ _ _ Hout) as [_ Hperm].
  assert (ExperimentBrowserView exps 0 = Ok (PaginatedView_init out 0 20)) as Hview
    by (unfold ExperimentBrowserView; by rewrite Hout).
  pose proof (get_page_Ok (PaginatedView_init out 0 20) ltac:(done)) as Hpage.
  unfold experiments. rewrite Hview. cbn [bind]. rewrite Hpage.
  eexists _, _, _. split_and!; try reflexivity. done.
Qed.

End BrowserProperties.

(** ** Fetching a build *)

Section FetchProperties.
Variable Build : Type.
Variable session_get : string → Fetch.outcome (Fetch.response Build).
Variable build_experiments : Build → list Experiment.t.
Variable escape_markdown : string → string.
Variable partial_ratio : string → string → Q.

Lemma request_Got (url : string) (doc : Fetch.document Build) :
  (Fetch.request Build session_get url).2 = Fetch.Got doc ↔
  ∃ r, session_get url = Fetch.Got r ∧ Fetch.status r < 400 ∧ Fetch.json r = Fetch.Got doc.
Proof.
  unfold Fetch.request. simpl. destruct (session_get url) as [r|e].
  - destruct (Z.leb_spec 400 (Fetch.status r)).
    + split; [done|]. intros (r' & [= <-] & ? & _). lia.
    + split; [by eauto|]. by intros (r' & [= <-] & _ & ?).
  - split; [done|]. by intros (r' & ? & _).
Qed.

Lemma get_build_Some (h : string) :
  Fetch.get_build Build session_get (Some h)
  = ([Fetch.base_url +:+ h], (Fetch.request Build session_get (Fetch.base_url +:+ h)).2).
Proof. reflexivity. Qed.

Lemma get_build_None :
  Fetch.get_build Build session_get None
  = match (Fetch.request Build session_get Fetch.base_url).2 with
    | Fetch.Got (Fetch.Listing (h :: _)) =>
        ([Fetch.base_url; Fetch.base_url +:+ h],
         (Fetch.request Build session_get (Fetch.base_url +:+ h)).2)
    | Fetch.Got (Fetch.Listing []) => ([Fetch.base_url], Fetch.Failed Fetch.IndexError)
    | Fetch.Got (Fetch.BuildDoc _) =>
        ([Fetch.base_url], Fetch.Failed (Fetch.KeyError "builds"))
    | Fetch.Failed e => ([Fetch.base_url], Fetch.Failed e)
    end.
Proof.
  unfold Fetch.get_build.
  destruct (Fetch.request Build session_get Fetch.base_url) as [tr o] eqn:Hreq.
  assert (tr = [Fetch.base_url]) as -> by (unfold Fetch.request in Hreq; congruence).
  by destruct o as [[[|h rest]|b]|e].
Qed.

(** Without a hash, [get_build] fetches the build of the first entry of
    the listing: after the request of the listing it does what it does for
    that entry's hash. *)
Theorem get_build_default_is_first_listed (h : string) (rest : list string) :
  (Fetch.request Build session_get Fetch.base_url).2 = Fetch.Got (Fetch.Listing (h :: rest)) →
  Fetch.get_build Build session_get None
  = (Fetch.base_url :: (Fetch.get_build Build session_get (Some h)).1,
     (Fetch.get_build Build session_get (Some h)).2).
Proof.
  intros Hl. by rewrite get_build_None, Hl, get_build_Some.
Qed.

(** When the request of the listing fails, by an exception of the request,
    a status of 400 or more, a body that is not JSON or a listing without
    entries, [get_build] without a hash raises after that one request: no
    build is requested. *)
Theorem get_build_listing_failure_stops :
  (∀ e, session_get Fetch.base_url = Fetch.Failed e →
        Fetch.get_build Build session_get None = ([Fetch.base_url], Fetch.Failed e)) ∧
  (∀ r, session_get Fetch.base_url = Fetch.Got r → 400 ≤ Fetch.status r →
        Fetch.get_build Build session_get None
        = ([Fetch.base_url], Fetch.Failed (Fetch.ClientResponseError (Fetch.status r)))) ∧
  (∀ r e, session_get Fetch.base_url = Fetch.Got r → Fetch.status r < 400 →
          Fetch.json r = Fetch.Failed e →
          Fetch.get_build Build session_get None = ([Fetch.base_url], Fetch.Failed e)) ∧
  (∀ r, session_get Fetch.base_url = Fetch.Got r → Fetch.status r < 400 →
        Fetch.json r = Fetch.Got (Fetch.Listing []) →
        Fetch.get_build Build session_get None
        = ([Fetch.base_url], Fetch.Failed Fetch.IndexError)).
Proof.
  rewrite get_build_None. unfold Fetch.request. simpl. split_and!.
  - by intros e ->.
  - intros r -> H. by destruct (Z.leb_spec 400 (Fetch.status r)); [|lia].
  - intros r e -> H ->. by destruct (Z.leb_spec 400 (Fetch.status r)); [lia|].
  - intros r -> H ->. by destruct (Z.leb_spec 400 (Fetch.status r)); [lia|].
Qed.

(** A document is returned only from a response of status below 400, at
    the URL of the hash that was given or, without one, of the first hash
    of a listing that was itself fetched with a status below 400; one or
    two URLs are requested. *)
Theorem get_build_Got_inv (build_hash : option string) (trace : list string)
    (doc : Fetch.document Build) :
  Fetch.get_build Build session_get build_hash = (trace, Fetch.Got doc) →
  ∃ h r,
    session_get (Fetch.base_url +:+ h) = Fetch.Got r ∧
    Fetch.status r < 400 ∧ Fetch.json r = Fetch.Got doc ∧
    ((build_hash = Some h ∧ trace = [Fetch.base_url +:+ h]) ∨
     (build_hash = None ∧ trace = [Fetch.base_url; Fetch.base_url +:+ h] ∧
      ∃ r0 rest,
        session_get Fetch.base_url = Fetch.Got r0 ∧ Fetch.status r0 < 400 ∧
        Fetch.json r0 = Fetch.Got (Fetch.Listing (h :: rest)))).
Proof.
  destruct build_hash as [h|].
  - rewrite get_build_Some. intros [= <- Hreq].
    apply request_Got in Hreq as (r & Hr & Hs & Hj).
    exists h, r. split_and!; try done. by left.
  - rewrite get_build_None.
    destruct (Fetch.request Build session_get Fetch.base_url).2
      as [[[|h rest]|b]|e] eqn:Hl; try done.
    intros [= <- Hreq].
    apply request_Got in Hreq as (r & Hr & Hs & Hj).
    apply request_Got in Hl as (r0 & Hr0 & Hs0 & Hj0).
    exists h, r. split_and!; try done. right. split_and!; try done. by eauto.
Qed.

(** The command requests what [get_build] requests and nothing more; it
    replies exactly when a build was fetched and the body of the command
    replies on its experiments, and an exception of [get_build] is the
    exception of the command. *)
Theorem experiments_command_reply (experiment build_hash : option string) :
  (Fetch.experiments_command Build session_get build_experiments
     escape_markdown partial_ratio experiment build_hash).1
  = (Fetch.get_build Build session_get build_hash).1 ∧
  (∀ r,
     (Fetch.experiments_command Build session_get build_experiments
        escape_markdown partial_ratio experiment build_hash).2 = Fetch.Got r
     ↔ ∃ b, (Fetch.get_build Build session_get build_hash).2 = Fetch.Got (Fetch.BuildDoc b) ∧
            experiments escape_markdown partial_ratio (build_experiments b) experiment
            = Ok r) ∧
  (∀ e,
     (Fetch.get_build Build session_get build_hash).2 = Fetch.Failed e →
     (Fetch.experiments_command Build session_get build_experiments
        escape_markdown partial_ratio experiment build_hash).2 = Fetch.Failed e).
Proof.
  unfold Fetch.experiments_command, Fetch.fetch_bind.
  destruct (Fetch.get_build Build session_get build_hash) as [tr [[hs|b]|e]]; simpl.
  - split_and!; [by rewrite app_nil_r| |done].
    intros r. split; [done|]. by intros (b & [=] & _).
  - destruct (experiments _ _ _ _) as [r|e] eqn:He; simpl;
      (split_and!; [by rewrite app_nil_r| |done]); intros r'.
    + split; [intros [= <-]; by eauto|]. intros (b' & [= <-] & Hr). congruence.
    + split; [done|]. intros (b' & [= <-] & Hr). congruence.
  - split_and!; [done| |by intros e' [= <-]].
    intros r. split; [done|]. by intros (b & [=] & _).
Qed.

End FetchProperties.

(** * Instances of the further properties *)

Lemma pages_least_cover_witness :
  1 ≤ per_page Scenario.five < float_exact_bound ∧
  Z.of_nat (length (data Scenario.five)) < float_exact_bound ∧
  ∃ n, pages Scenario.five = Ok n ∧
       (n - 1) * per_page Scenario.five
       < Z.of_nat (length (data Scenario.five)) ≤ n * per_page Scenario.five.
Proof.
  assert (1 ≤ per_page Scenario.five < float_exact_bound) as Hpp
    by (split; reflexivity || discriminate).
  assert (Z.of_nat (length (data Scenario.five)) < float_exact_bound) as Hlen
    by reflexivity.
  split_and!; [apply Hpp|apply Hpp|exact Hlen|].
  exact (pages_least_cover Scenario.five Hpp Hlen).
Defined.

Lemma pages_partition_data_witness :
  1 ≤ per_page Scenario.five < float_exact_bound ∧
  Z.of_nat (length (data Scenario.five)) < float_exact_bound ∧
  pages Scenario.five = Ok 3 ∧
  concat ((λ c, get_page_data (set_index Scenario.five c))
            <$> page_cursors 3 (per_page Scenario.five))
  = data Scenario.five.
Proof.
  assert (1 ≤ per_page Scenario.five < float_exact_bound) as Hpp
    by (split; reflexivity || discriminate).
  assert (Z.of_nat (length (data Scenario.five)) < float_exact_bound) as Hlen
    by reflexivity.
  assert (pages Scenario.five = Ok 3) as Hn by reflexivity.
  split_and!; [apply Hpp|apply Hpp|exact Hlen|exact Hn|].
  exact (pages_partition_data Scenario.five 3 Hpp Hlen Hn).
Defined.

Lemma run_net_presses_witness :
  [Next; Next; Previous] ≡ₚ [Previous; Next; Next] ∧
  run Sample.blank_page Scenario.five [Previous; Next; Next]
  = run Sample.blank_page Scenario.five [Next; Next; Previous].
Proof.
  assert ([Next; Next; Previous] ≡ₚ [Previous; Next; Next]) as Hp.
  { apply (Permutation_app_comm [Next; Next] [Previous]). }
  destruct (run_net_presses Sample.blank_page Scenario.five [Next; Next; Previous])
    as (_ & _ & _ & Hperm).
  split; [exact Hp|exact (Hperm _ Hp)].
Defined.

Lemma enabled_presses_stay_in_range_witness :
  1 ≤ 2 ∧ 2 < Z.of_nat (length [1; 2; 3; 4; 5]) ∧
  reachable_by_enabled Sample.blank_page (PaginatedView_init [1; 2; 3; 4; 5] 0 2)
    Sample.second_of_three ∧
  get_page_data Sample.second_of_three ≠ [].
Proof.
  assert (1 ≤ 2) as Hpp by lia.
  assert (2 < Z.of_nat (length [1; 2; 3; 4; 5])) as Hlen by (simpl; lia).
  assert (reachable_by_enabled Sample.blank_page
            (PaginatedView_init [1; 2; 3; 4; 5] 0 2) Sample.second_of_three) as Hr.
  { apply (reach_press Sample.blank_page _ _ Next); [apply reach_start|reflexivity]. }
  destruct (enabled_presses_stay_in_range Sample.blank_page _ _ _ Hpp Hlen Hr)
    as (_ & _ & Hne & _).
  split_and!; [exact Hpp|exact Hlen|exact Hr|exact Hne].
Defined.

Lemma buttons_follow_page_number_witness :
  1 ≤ 2 ∧
  reachable_by_enabled Sample.blank_page (PaginatedView_init [1; 2; 3; 4; 5] 0 2)
    Scenario.five ∧
  deliverable Scenario.five Next = true ∧
  ∃ n m, current_page (fire Sample.blank_page Scenario.five Next) = Ok n ∧
         pages (fire Sample.blank_page Scenario.five Next) = Ok m ∧
         (previous_page_disabled (fire Sample.blank_page Scenario.five Next) = true
          ↔ n = 1) ∧
         (next_page_disabled (fire Sample.blank_page Scenario.five Next) = true ↔ m ≤ n).
Proof.
  assert (1 ≤ 2) as Hpp by lia.
  assert (reachable_by_enabled Sample.blank_page
            (PaginatedView_init [1; 2; 3; 4; 5] 0 2) Scenario.five) as Hr
    by apply reach_start.
  assert (deliverable Scenario.five Next = true) as Hen by reflexivity.
  split_and!; [exact Hpp|exact Hr|exact Hen|].
  exact (buttons_follow_page_number Sample.blank_page _ _ _ Next Hpp Hr Hen).
Defined.

Lemma single_page_next_overshoots_witness :
  1 ≤ 20 < float_exact_bound ∧ 0 < Z.of_nat (length [1; 2; 3]) ≤ 20 ∧
  get_page_data (fire Sample.blank_page Scenario.three Next) = [] ∧
  current_page (fire Sample.blank_page Scenario.three Next) = Ok 2 ∧
  pages (fire Sample.blank_page Scenario.three Next) = Ok 1.
Proof.
  assert (1 ≤ 20 < float_exact_bound) as Hpp by (split; reflexivity || discriminate).
  assert (0 < Z.of_nat (length [1; 2; 3]) ≤ 20) as Hlen
    by (split; reflexivity || discriminate).
  destruct (single_page_next_overshoots Sample.blank_page [1; 2; 3] 20 Hpp Hlen)
    as (_ & H1 & H2 & H3 & _).
  split_and!; [apply Hpp|apply Hpp|apply Hlen|apply Hlen|exact H1|exact H2|exact H3].
Defined.

Lemma retreat_below_zero_witness :
  index Scenario.five = 0 ∧ 1 ≤ per_page Scenario.five ∧
  2 * per_page Scenario.five ≤ Z.of_nat (length (data Scenario.five)) ∧
  get_page_data (fire Sample.blank_page Scenario.five Previous) = [] ∧
  get_page_data
    (fire Sample.blank_page (fire Sample.blank_page Scenario.five Previous) Previous)
  = [2; 3].
Proof.
  assert (index Scenario.five = 0) as Hi by reflexivity.
  assert (1 ≤ per_page Scenario.five) as Hpp by (simpl; lia).
  assert (2 * per_page Scenario.five ≤ Z.of_nat (length (data Scenario.five))) as Hlen
    by (simpl; lia).
  destruct (retreat_below_zero Sample.blank_page Scenario.five Hi Hpp) as [H1 H2].
  split_and!; [exact Hi|exact Hpp|exact Hlen|exact H1|exact (H2 Hlen)].
Defined.

Lemma Page_init_succeeds_iff_witness :
  Some (ExperimentEmbed Sample.unrelated) ≠ None ∧
  Some [ExperimentEmbed Sample.near_miss] ≠ None ∧
  Page_init None (Some (ExperimentEmbed Sample.unrelated))
    (Some [ExperimentEmbed Sample.near_miss]) (Some (FileRef "a.png")) (Some [])
  = Raise (ValueError "Cannot set both `embed` and `embeds`.").
Proof.
  assert (Some (ExperimentEmbed Sample.unrelated) ≠ None) as He by discriminate.
  assert (Some [ExperimentEmbed Sample.near_miss] ≠ None) as Hes by discriminate.
  destruct (Page_init_succeeds_iff None (Some (ExperimentEmbed Sample.unrelated))
              (Some [ExperimentEmbed Sample.near_miss]) (Some (FileRef "a.png")) (Some []))
    as (_ & Hfirst & _).
  split_and!; [exact He|exact Hes|exact (Hfirst He Hes)].
Defined.

Lemma unpack_Page_init_witness :
  Page_init (Some "") (Some (ExperimentEmbed Sample.unrelated)) None None (Some [])
  = Ok {| content := Some ""; embeds := Some [ExperimentEmbed Sample.unrelated];
          attachments := Some [] |} ∧
  unpack {| content := Some ""; embeds := Some [ExperimentEmbed Sample.unrelated];
            attachments := Some [] |}
  = [ ("content", VContent ""); ("embeds", VEmbeds [ExperimentEmbed Sample.unrelated]);
      ("attachments", VAttachments []) ].
Proof.
  assert (Page_init (Some "") (Some (ExperimentEmbed Sample.unrelated)) None None (Some [])
          = Ok {| content := Some ""; embeds := Some [ExperimentEmbed Sample.unrelated];
                  attachments := Some [] |}) as Hp by reflexivity.
  split; [exact Hp|exact (unpack_Page_init _ _ _ _ _ _ Hp)].
Defined.

Lemma sorter_year_month_witness :
  Experiment.id Sample.foo_bar_first = "2024-03-foo" ∧
  Forall (λ c, Py.is_digit c = true) ["2"; "0"; "2"; "4"; "0"; "3"]%char ∧
  sorter Sample.foo_bar_first = KInt 202403.
Proof.
  assert (Experiment.id Sample.foo_bar_first = "2024-03-foo") as Hid by reflexivity.
  assert (Forall (λ c, Py.is_digit c = true) ["2"; "0"; "2"; "4"; "0"; "3"]%char) as Hd
    by (repeat constructor).
  split_and!; [exact Hid|exact Hd|].
  exact (sorter_year_month Sample.foo_bar_first _ _ _ _ _ _ "-foo" Hid Hd).
Defined.

Lemma dated_homogeneous :
  ∀ x y, x ∈ Scenario.dated → y ∈ Scenario.dated → is_int (sorter x) = is_int (sorter y).
Proof.
  assert (∀ x, x ∈ Scenario.dated → is_int (sorter x) = true) as H.
  { intros x Hx. unfold Scenario.dated in Hx.
    repeat (apply elem_of_cons in Hx as [->|Hx]; [reflexivity|]).
    by apply elem_of_nil in Hx. }
  intros x y Hx Hy. by rewrite (H x Hx), (H y Hy).
Defined.

Lemma dated_ascii :
  ∀ x, x ∈ Scenario.dated → isascii (Experiment.id x) = true.
Proof.
  intros x Hx. unfold Scenario.dated in Hx.
  repeat (apply elem_of_cons in Hx as [->|Hx]; [reflexivity|]).
  by apply elem_of_nil in Hx.
Defined.

Lemma ExperimentBrowserView_succeeds_iff_witness :
  (∀ x, x ∈ Scenario.dated → isascii (Experiment.id x) = true) ∧
  (∀ x y, x ∈ Scenario.dated → y ∈ Scenario.dated →
          is_int (sorter x) = is_int (sorter y)) ∧
  ∃ v, ExperimentBrowserView Scenario.dated 0 = Ok v.
Proof.
  destruct (ExperimentBrowserView_succeeds_iff Scenario.dated 0 dated_ascii)
    as [[_ Hbuilt] _].
  split_and!; [exact dated_ascii|exact dated_homogeneous|].
  exact (Hbuilt dated_homogeneous).
Defined.

Lemma ExperimentBrowserView_stable_descending_witness :
  ExperimentBrowserView Scenario.dated 0
  = Ok (PaginatedView_init Scenario.dated_sorted 0 20) ∧
  data (PaginatedView_init Scenario.dated_sorted 0 20) ≡ₚ Scenario.dated.
Proof.
  assert (ExperimentBrowserView Scenario.dated 0
          = Ok (PaginatedView_init Scenario.dated_sorted 0 20)) as Hv by reflexivity.
  destruct (ExperimentBrowserView_stable_descending _ _ _ Hv) as (Hperm & _).
  split; [exact Hv|exact Hperm].
Defined.

Lemma get_page_raises_iff_witness :
  Z.abs (index (PaginatedView_init Scenario.dated_sorted 0 20))
  < 10 ^ (int_max_str_digits - 1) ∧
  per_page (PaginatedView_init Scenario.dated_sorted 0 20) ≠ 0 ∧
  ∃ page embed,
    get_page (λ s, s) (PaginatedView_init Scenario.dated_sorted 0 20) = Ok page ∧
    unpack page = [("embeds", VEmbeds [embed])].
Proof.
  assert (Z.abs (index (PaginatedView_init Scenario.dated_sorted 0 20))
          < 10 ^ (int_max_str_digits - 1)) as Hi by (vm_compute; reflexivity).
  assert (per_page (PaginatedView_init Scenario.dated_sorted 0 20) ≠ 0) as Hne
    by discriminate.
  destruct (get_page_raises_iff (λ s, s)
              (PaginatedView_init Scenario.dated_sorted 0 20) Hi) as [_ Hok].
  split_and!; [exact Hi|exact Hne|exact (Hok Hne)].
Defined.

Lemma browser_always_renders_witness :
  Z.of_nat (length Scenario.dated) < float_exact_bound ∧
  Z.abs 0 + 20 * (Z.of_nat (length [Next; Next]) + 1) < 10 ^ (int_max_str_digits - 1) ∧
  ExperimentBrowserView Scenario.dated 0
  = Ok (PaginatedView_init Scenario.dated_sorted 0 20) ∧
  ∃ embed,
    get_page (λ s, s)
      (fire (get_page (λ s, s))
         (run (get_page (λ s, s)) (PaginatedView_init Scenario.dated_sorted 0 20)
            [Next; Next]) Previous)
    = Ok {| content := None; embeds := Some [embed]; attachments := None |}.
Proof.
  assert (Z.of_nat (length Scenario.dated) < float_exact_bound) as Hlen by reflexivity.
  assert (Z.abs 0 + 20 * (Z.of_nat (length [Next; Next]) + 1)
          < 10 ^ (int_max_str_digits - 1)) as Hi by (vm_compute; reflexivity).
  assert (ExperimentBrowserView Scenario.dated 0
          = Ok (PaginatedView_init Scenario.dated_sorted 0 20)) as Hv by reflexivity.
  destruct (browser_always_renders (λ s, s) _ _ _ [Next; Next] Previous Hlen Hi Hv)
    as (_ & embed & Hpage & _).
  split_and!; [exact Hlen|exact Hi|exact Hv|exact (ex_intro _ embed Hpage)].
Defined.

Lemma lookup_ignores_query_case_witness :
  "Foo Bar" ≠ "" ∧ "FOO BAR" ≠ "" ∧ Py.lower "Foo Bar" = Py.lower "FOO BAR" ∧
  experiments (λ s, s) Sample.ratio_table Scenario.dated (Some "Foo Bar")
  = experiments (λ s, s) Sample.ratio_table Scenario.dated (Some "FOO BAR").
Proof.
  assert ("Foo Bar" ≠ "") as Hq by discriminate.
  assert ("FOO BAR" ≠ "") as Hq' by discriminate.
  assert (Py.lower "Foo Bar" = Py.lower "FOO BAR") as Heq by reflexivity.
  destruct (lookup_ignores_query_case (λ s, s) Sample.ratio_table Scenario.dated
              "Foo Bar" "FOO BAR" Hq Hq' Heq) as [Hsame _].
  split_and!; [exact Hq|exact Hq'|exact Heq|exact Hsame].
Defined.

Lemma lookup_survives_mixed_ids_witness :
  (∀ z, z ∈ [Sample.foo_bar_first; Scenario.bad_id] →
        isascii (Experiment.id z) = true) ∧
  Sample.foo_bar_first ∈ [Sample.foo_bar_first; Scenario.bad_id] ∧
  Scenario.bad_id ∈ [Sample.foo_bar_first; Scenario.bad_id] ∧
  is_int (sorter Sample.foo_bar_first) ≠ is_int (sorter Scenario.bad_id) ∧
  experiments (λ s, s) Sample.ratio_table [Sample.foo_bar_first; Scenario.bad_id] None
  = Raise TypeError.
Proof.
  assert (∀ z, z ∈ [Sample.foo_bar_first; Scenario.bad_id] →
               isascii (Experiment.id z) = true) as Hascii.
  { intros z Hz. repeat (apply elem_of_cons in Hz as [->|Hz]; [reflexivity|]).
    by apply elem_of_nil in Hz. }
  assert (Sample.foo_bar_first ∈ [Sample.foo_bar_first; Scenario.bad_id]) as Hx
    by (apply elem_of_cons; left; reflexivity).
  assert (Scenario.bad_id ∈ [Sample.foo_bar_first; Scenario.bad_id]) as Hy
    by (apply elem_of_cons; right; apply elem_of_cons; left; reflexivity).
  assert (is_int (sorter Sample.foo_bar_first) ≠ is_int (sorter Scenario.bad_id)) as Hne
    by discriminate.
  destruct (lookup_survives_mixed_ids (λ s, s) Sample.ratio_table _ _ _ Hascii Hx Hy Hne)
    as [Hnone _].
  split_and!; [exact Hascii|exact Hx|exact Hy|exact Hne|exact Hnone].
Defined.

Lemma browse_reply_witness :
  (∀ x, x ∈ Scenario.dated → isascii (Experiment.id x) = true) ∧
  Z.of_nat (length Scenario.dated) < float_exact_bound ∧
  (∀ x y, x ∈ Scenario.dated → y ∈ Scenario.dated →
          is_int (sorter x) = is_int (sorter y)) ∧
  ∃ view embed n,
    experiments (λ s, s) Sample.ratio_table Scenario.dated None
    = Ok (ReplyView [("embeds", VEmbeds [embed])] view) ∧
    pages view = Ok n ∧ title embed = "Page 1/" +:+ Py.str_of_int n.
Proof.
  assert (Z.of_nat (length Scenario.dated) < float_exact_bound) as Hlen by reflexivity.
  destruct (browse_reply (λ s, s) Sample.ratio_table Scenario.dated
              dated_ascii Hlen dated_homogeneous)
    as (view & embed & n & H1 & _ & _ & _ & _ & _ & _ & _ & H2 & H3 & _).
  split_and!; [exact dated_ascii|exact Hlen|exact dated_homogeneous|].
  exact (ex_intro _ view (ex_intro _ embed (ex_intro _ n (conj H1 (conj H2 H3))))).
Defined.

Lemma get_build_default_is_first_listed_witness :
  (Fetch.request _ Scenario.session Fetch.base_url).2
  = Fetch.Got (Fetch.Listing ["abc123"; "def456"]) ∧
  Fetch.get_build _ Scenario.session None
  = ([Fetch.base_url; Fetch.base_url +:+ "abc123"],
     Fetch.Got (Fetch.BuildDoc Scenario.dated)).
Proof.
  assert ((Fetch.request _ Scenario.session Fetch.base_url).2
          = Fetch.Got (Fetch.Listing ["abc123"; "def456"])) as Hl by reflexivity.
  split; [exact Hl|].
  exact (get_build_default_is_first_listed _ Scenario.session "abc123" ["def456"] Hl).
Defined.

Lemma get_build_listing_failure_stops_witness :
  400 ≤ 503 ∧
  Fetch.get_build _ Scenario.down None
  = ([Fetch.base_url], Fetch.Failed (Fetch.ClientResponseError 503)).
Proof.
  assert (400 ≤ 503) as Hs by lia.
  destruct (get_build_listing_failure_stops _ Scenario.down) as (_ & Hstatus & _).
  split; [exact Hs|].
  exact (Hstatus {| Fetch.status := 503; Fetch.json := Fetch.Failed Fetch.ContentError |}
           eq_refl Hs).
Defined.

Lemma get_build_Got_inv_witness :
  Fetch.get_build _ Scenario.session (Some "abc123")
  = ([Fetch.base_url +:+ "abc123"], Fetch.Got (Fetch.BuildDoc Scenario.dated)) ∧
  ∃ h r, Scenario.session (Fetch.base_url +:+ h) = Fetch.Got r ∧ Fetch.status r < 400.
Proof.
  assert (Fetch.get_build _ Scenario.session (Some "abc123")
          = ([Fetch.base_url +:+ "abc123"], Fetch.Got (Fetch.BuildDoc Scenario.dated)))
    as Hg by reflexivity.
  destruct (get_build_Got_inv _ Scenario.session _ _ _ Hg) as (h & r & Hr & Hs & _).
  split; [exact Hg|exact (ex_intro _ h (ex_intro _ r (conj Hr Hs)))].
Defined.

Lemma experiments_command_reply_witness :
  (Fetch.get_build _ Scenario.down None).2
  = Fetch.Failed (Fetch.ClientResponseError 503) ∧
  (Fetch.experiments_command _ Scenario.down (λ b, b) (λ s, s) Sample.ratio_table
     (Some "Foo Bar") None).2
  = Fetch.Failed (Fetch.ClientResponseError 503).
Proof.
  assert ((Fetch.get_build _ Scenario.down None).2
          = Fetch.Failed (Fetch.ClientResponseError 503)) as Hf by reflexivity.
  destruct (experiments_command_reply _ Scenario.down (λ b, b) (λ s, s)
              Sample.ratio_table (Some "Foo Bar") None) as (_ & _ & Hfail).
  split; [exact Hf|exact (Hfail _ Hf)].
Defined.

Lemma get_page_data_contiguous_witness :
  0 ≤ per_page Sample.before_the_start ∧
  Z.of_nat (length (get_page_data Sample.before_the_start))
  ≤ per_page Sample.before_the_start.
Proof.
  assert (0 ≤ per_page Sample.before_the_start) as Hpp by (simpl; lia).
  destruct (get_page_data_contiguous Sample.before_the_start Hpp) as [_ Hlen].
  split; [exact Hpp|exact Hlen].
Defined.

Lemma lookup_replies_from_dataset_witness :
  "Foo Bar" ≠ "" ∧
  experiments (λ s, s) Sample.ratio_table [] (Some "Foo Bar")
  = Ok (ReplyText "No such experiment found.").
Proof.
  assert ("Foo Bar" ≠ "") as Hq by discriminate.
  destruct (lookup_replies_from_dataset (λ s, s) Sample.ratio_table Scenario.dated
              "Foo Bar" Hq) as [_ Hempty].
  split; [exact Hq|exact Hempty].
Defined.
